(** * qibo-cloud-providers: the Braket execution client

    A shallow embedding of [src/qibo_cloud_backends/braket_client.py]
    (class [BraketClientBackend]: [__init__] and [execute_circuit]) and the
    properties its specification states about it.

    The client is glue code around two external libraries, so the embedding
    is a small state-and-exception monad: the state holds the client object
    ([self]), the state of everything outside the process (the device SDK,
    the clock) and the trace of the calls made to the outside so far.  The
    outside is a parameter: an [Env] answers each SDK call with a value or
    with an exception.  The one unbounded loop, [while self.verbosity:],
    takes fuel. *)

From Stdlib Require Import ZArith List String Ascii Bool Arith Lia.
Import ListNotations.

Local Open Scope Z_scope.
Local Open Scope string_scope.
Local Open Scope list_scope.

(** ** Python values, exceptions, devices *)

(** Values a caller can put in the [**kwargs] bag. *)
Inductive PyVal : Type :=
| PyNone
| PyBool (b : bool)
| PyInt (z : Z)
| PyStr (s : string).

(** [**kwargs]: keyword names with their values, in the caller's order. *)
Definition Kwargs : Type := list (string * PyVal).

(** A raised exception: its class and its message. *)
Record PyExn : Type := mkExn { exn_class : string; exn_message : string }.

(** [braket.devices.LocalSimulator(backend)] and [braket.aws.AwsDevice(arn)],
    as the constructor calls the client makes.  [LocalSimulator None] is the
    call with no argument, [LocalSimulator()]. *)
Inductive Device : Type :=
| LocalSimulator (backend : option string)
| AwsDevice (arn : string).

(** The raw samples: one row per shot, one column per measured qubit. *)
Definition Samples : Type := list (list Z).

(** What [task.result()] returns; the client reads [.measurements]. *)
Module TaskResult.
Record t : Type := mk { measurements : Samples }.
End TaskResult.

(** [qibo.Circuit], as far as the client looks into it: the gate queue (read
    by the translation) and the list of measurement gates. *)
Module QiboCircuit.
Record t (Gate : Type) : Type := mk { queue : list Gate; measurements : list Gate }.
Arguments mk {Gate} _ _.
Arguments queue {Gate} _.
Arguments measurements {Gate} _.
End QiboCircuit.

(** ** The client object *)

Record BraketClientBackend : Type := mkBackend {
  verbatim_circuit : bool;
  verbosity : bool;
  device : Device;
  name : string
}.

(** Truth value of a Python [str] and of a Python [list]. *)
Definition str_truthy (s : string) : bool :=
  match s with EmptyString => false | String _ _ => true end.

Definition list_truthy {A : Type} (l : list A) : bool :=
  match l with [] => false | _ :: _ => true end.

(** [BraketClientBackend.__init__(self, device=None, verbatim_circuit=False,
    verbosity=False)]; [device] is [None] or a [str]. *)
Definition __init__ (device : option string) (verbatim_circuit verbosity : bool)
  : BraketClientBackend :=
  let dev :=
    match device with
    | Some d =>
        if String.eqb d "braket_dm" then LocalSimulator (Some "braket_dm")
        else if str_truthy d then AwsDevice d
        else LocalSimulator None
    | None => LocalSimulator None
    end in
  mkBackend verbatim_circuit verbosity dev "aws".

(** [qibo.result.MeasurementOutcomes(measurements, backend, samples, nshots)]. *)
Module MeasurementOutcomes.
Record t (Gate : Type) : Type := mk {
  measurements : list Gate;
  backend : BraketClientBackend;
  samples : Samples;
  nshots : Z
}.
Arguments mk {Gate} _ _ _ _.
Arguments measurements {Gate} _.
Arguments backend {Gate} _.
Arguments samples {Gate} _.
Arguments nshots {Gate} _.
End MeasurementOutcomes.

(** ** Text written by [print] *)

Definition LF : string := String (ascii_of_nat 10) EmptyString.
Definition CR : string := String (ascii_of_nat 13) EmptyString.

(** [s * n] on Python strings. *)
Fixpoint str_mul (s : string) (n : nat) : string :=
  match n with
  | O => EmptyString
  | S n' => s ++ str_mul s n'
  end.

(** ** The outside world *)

(** The calls that leave the process, in the order they are made. *)
Inductive Event (BraketCircuit Task : Type) : Type :=
| DeviceRun (d : Device) (task_specification : BraketCircuit) (shots : Z) (kwargs : Kwargs)
| TaskState (task : Task)
| TaskResultCall (task : Task)
| StdoutWrite (text : string)
| TimeSleep (secs : Z).
Arguments DeviceRun {BraketCircuit Task} _ _ _ _.
Arguments TaskState {BraketCircuit Task} _.
Arguments TaskResultCall {BraketCircuit Task} _.
Arguments StdoutWrite {BraketCircuit Task} _.
Arguments TimeSleep {BraketCircuit Task} _.

(** The environment: how the SDK answers [device.run(...)], [task.state()]
    and [task.result()] in a given state of the world (with a value or with
    an exception), and how the world moves while the process sleeps. *)
Record Env (BraketCircuit Task World : Type) : Type := mkEnv {
  device_run : Device -> BraketCircuit -> Z -> Kwargs -> World -> (PyExn + Task) * World;
  task_state : Task -> World -> (PyExn + string) * World;
  task_result : Task -> World -> (PyExn + TaskResult.t) * World;
  time_sleep : Z -> World -> World
}.
Arguments mkEnv {BraketCircuit Task World} _ _ _ _.
Arguments device_run {BraketCircuit Task World} _ _ _ _ _ _.
Arguments task_state {BraketCircuit Task World} _ _ _.
Arguments task_result {BraketCircuit Task World} _ _ _.
Arguments time_sleep {BraketCircuit Task World} _ _ _.

(** How a computation ends: it returns, it raises, or the fuel of the
    polling loop ran out before the loop was left. *)
Inductive Outcome (A : Type) : Type :=
| Returned (a : A)
| Raised (e : PyExn)
| OutOfFuel.
Arguments Returned {A} _.
Arguments Raised {A} _.
Arguments OutOfFuel {A}.

Section Monad.

Context {BraketCircuit Task World : Type}.

(** The state a call runs in: the client object, the world, and the calls
    made so far. *)
Record State : Type := mkState {
  self : BraketClientBackend;
  world : World;
  trace : list (Event BraketCircuit Task)
}.

Definition M (A : Type) : Type := State -> Outcome A * State.

Definition ret {A : Type} (a : A) : M A := fun s => (Returned a, s).

Definition bind {A B : Type} (m : M A) (k : A -> M B) : M B :=
  fun s =>
    match m s with
    | (Returned a, s') => k a s'
    | (Raised e, s') => (Raised e, s')
    | (OutOfFuel, s') => (OutOfFuel, s')
    end.

Definition raise {A : Type} (e : PyExn) : M A := fun s => (Raised e, s).

Definition out_of_fuel {A : Type} : M A := fun s => (OutOfFuel, s).

End Monad.

Arguments State : clear implicits.
Arguments M : clear implicits.

Declare Scope py_scope.
Delimit Scope py_scope with py.
Notation "x <- m ;; k" := (bind m (fun x => k))
  (at level 61, m at next level, right associativity) : py_scope.
Notation "m ;; k" := (bind m (fun _ => k))
  (at level 61, right associativity) : py_scope.
Local Open Scope py_scope.

Section Client.

Context {Gate BraketCircuit Task World : Type}.

(** [qibo_cloud_backends.braket_translation.to_braket(circuit, verbatim)]:
    the translation pass.  The client only calls it, so it is kept abstract
    here: a pure function of the circuit and the flag that returns the
    Braket circuit or raises (an unsupported gate). *)
Variable to_braket : QiboCircuit.t Gate -> bool -> PyExn + BraketCircuit.

Variable env : Env BraketCircuit Task World.

Local Abbreviation M := (M BraketCircuit Task World).

(** [qibo.config.raise_error(exception, message)]. *)
Definition raise_error {A : Type} (exception message : string) : M A :=
  raise (mkExn exception message).

(** Reading an attribute of [self]. *)
Definition get_self : M BraketClientBackend := fun s => (Returned (self s), s).

(** A value or an exception computed inside the process. *)
Definition lift {A : Type} (r : PyExn + A) : M A :=
  match r with
  | inl e => raise e
  | inr a => ret a
  end.

(** A call to the outside: it is recorded, the environment answers and moves
    the world, and an exception it answers with is raised in the caller. *)
Definition call {A : Type} (ev : Event BraketCircuit Task)
  (answer : World -> (PyExn + A) * World) : M A :=
  fun s =>
    let (r, w) := answer (world s) in
    let s' := mkState (self s) w (trace s ++ [ev]) in
    match r with
    | inl e => (Raised e, s')
    | inr a => (Returned a, s')
    end.

(** [print(text, end=end_, flush=True)]. *)
Definition print (text end_ : string) : M unit :=
  fun s => (Returned tt, mkState (self s) (world s) (trace s ++ [StdoutWrite (text ++ end_)])).

(** [time.sleep(secs)]. *)
Definition sleep (secs : Z) : M unit :=
  fun s => (Returned tt,
            mkState (self s) (time_sleep env secs (world s)) (trace s ++ [TimeSleep secs])).

(** [for i in range(start, start + count): body(i)]. *)
Fixpoint for_range (start count : nat) (body : nat -> M unit) : M unit :=
  match count with
  | O => ret tt
  | S k => body start ;; for_range (S start) k body
  end.

(** The keyword names of a [**kwargs] bag. *)
Definition keys (kwargs : Kwargs) : list string := map fst kwargs.

Definition has_key (k : string) (kwargs : Kwargs) : bool :=
  existsb (String.eqb k) (keys kwargs).

(** [device.run(braket_circuit, shots=nshots, **kwargs)].  Python builds the
    keyword arguments first: a [shots] entry in [kwargs] meets the explicit
    [shots=] and the call raises [TypeError] without entering [run].  (The
    interpreter's message names the callee by its qualified name, which
    depends on the device class; the model keeps the method name.) *)
Definition run (d : Device) (braket_circuit : BraketCircuit) (nshots : Z)
  (kwargs : Kwargs) : M Task :=
  if has_key "shots" kwargs then
    raise_error "TypeError" "run() got multiple values for keyword argument 'shots'"
  else
    call (DeviceRun d braket_circuit nshots kwargs)
         (device_run env d braket_circuit nshots kwargs).

(** [task.state()]. *)
Definition state (task : Task) : M string :=
  call (TaskState task) (task_state env task).

(** [task.result()]. *)
Definition result (task : Task) : M TaskResult.t :=
  call (TaskResultCall task) (task_result env task).

(** Lines 57-66, the status loop:
<<
    while self.verbosity:
        status = task.state()
        print(f"> Status {status}", end=" ", flush=True)
        if status == "COMPLETED":
            print("\n")
            break
        for _ in range(3):
            time.sleep(1)
            print(".", end=" ", flush=True)
        print("\r" + " " * 30, end="\r")
>>
    [fuel] bounds how many times the loop may be entered again after its
    first round. *)
Fixpoint while_verbosity (fuel : nat) (task : Task) {struct fuel} : M unit :=
  this <- get_self ;;
  if verbosity this then
    status <- state task ;;
    print ("> Status " ++ status) " " ;;
    if String.eqb status "COMPLETED" then
      print LF LF
    else
      for_range 0 3 (fun _ => sleep 1 ;; print "." " ") ;;
      print (CR ++ str_mul " " 30) CR ;;
      match fuel with
      | O => out_of_fuel
      | S fuel' => while_verbosity fuel' task
      end
  else ret tt.

(** [BraketClientBackend.execute_circuit(self, circuit_qibo, nshots=1000,
    **kwargs)]; [nshots = None] is the call that leaves the shot count out. *)
Definition execute_circuit (fuel : nat) (circuit_qibo : QiboCircuit.t Gate)
  (nshots : option Z) (kwargs : Kwargs) : M (MeasurementOutcomes.t Gate) :=
  let nshots := match nshots with Some n => n | None => 1000 end in
  let measurements := QiboCircuit.measurements circuit_qibo in
  (if negb (list_truthy measurements) then
     raise_error "RuntimeError" "No measurement found in the provided circuit."
   else ret tt) ;;
  this <- get_self ;;
  braket_circuit <- lift (to_braket circuit_qibo (verbatim_circuit this)) ;;
  this <- get_self ;;
  task <- run (device this) braket_circuit nshots kwargs ;;
  while_verbosity fuel task ;;
  res <- result task ;;
  let samples := TaskResult.measurements res in
  this <- get_self ;;
  ret (MeasurementOutcomes.mk measurements this samples nshots).

End Client.

(** ** The polling schedule, seen from the environment *)

Section Schedule.

Context {BraketCircuit Task World : Type}.

Variable env : Env BraketCircuit Task World.

(** The world after the pause that follows a poll: three sleeps of one
    second each. *)
Definition pause (w : World) : World :=
  time_sleep env 1 (time_sleep env 1 (time_sleep env 1 w)).

(** The calls of one round of the loop that read [status] and went on:
    the poll, the status line, three times a sleep of one second and a dot,
    and the line that blanks the status. *)
Definition poll_round (task : Task) (status : string) : list (Event BraketCircuit Task) :=
  [ TaskState task; StdoutWrite ("> Status " ++ status ++ " ");
    TimeSleep 1; StdoutWrite ". ";
    TimeSleep 1; StdoutWrite ". ";
    TimeSleep 1; StdoutWrite ". ";
    StdoutWrite (CR ++ str_mul " " 30 ++ CR) ].

(** The calls of the round that read COMPLETED and left the loop. *)
Definition final_round (task : Task) : list (Event BraketCircuit Task) :=
  [ TaskState task; StdoutWrite "> Status COMPLETED "; StdoutWrite (LF ++ LF) ].

(** [polled task w tags w']: polled from world [w] on, with a pause after
    each poll, the job answers the status tags [tags] one after the other,
    none of them COMPLETED, and the world is then [w']. *)
Inductive polled (task : Task) : World -> list string -> World -> Prop :=
| polled_nil : forall w, polled task w [] w
| polled_cons : forall w w1 tag tags w',
    task_state env task w = (inr tag, w1) ->
    tag <> "COMPLETED" ->
    polled task (pause w1) tags w' ->
    polled task w (tag :: tags) w'.

(** The job never completes from the worlds of [Inv] on: every poll there
    answers a status tag other than COMPLETED, and the pause leads to a
    world of [Inv] again. *)
Definition never_completes (task : Task) (Inv : World -> Prop) : Prop :=
  forall w, Inv w ->
    exists tag w1, task_state env task w = (inr tag, w1) /\
                   tag <> "COMPLETED" /\ Inv (pause w1).

End Schedule.

(** ** Reading a trace *)

Definition is_device_run {BraketCircuit Task : Type} (ev : Event BraketCircuit Task) : bool :=
  match ev with DeviceRun _ _ _ _ => true | _ => false end.

Definition is_task_state {BraketCircuit Task : Type} (ev : Event BraketCircuit Task) : bool :=
  match ev with TaskState _ => true | _ => false end.

Definition is_task_result {BraketCircuit Task : Type} (ev : Event BraketCircuit Task) : bool :=
  match ev with TaskResultCall _ => true | _ => false end.

Definition is_time_sleep {BraketCircuit Task : Type} (ev : Event BraketCircuit Task) : bool :=
  match ev with TimeSleep _ => true | _ => false end.

(** The events of a trace that are calls to the device SDK. *)
Definition is_sdk_call {BraketCircuit Task : Type} (ev : Event BraketCircuit Task) : bool :=
  is_device_run ev || is_task_state ev || is_task_result ev.

(** The number of status polls in a trace. *)
Definition polls {BraketCircuit Task : Type} (tr : list (Event BraketCircuit Task)) : nat :=
  List.length (filter is_task_state tr).

(** The seconds slept in a trace. *)
Fixpoint slept {BraketCircuit Task : Type} (tr : list (Event BraketCircuit Task)) : Z :=
  match tr with
  | [] => 0
  | TimeSleep secs :: tr' => secs + slept tr'
  | _ :: tr' => slept tr'
  end.

(** ** A device double *)

(** A translation and an environment to run the client on: gates are a kind
    tag with qubit indices, the translated circuit is the list of kind tags
    with the verbatim flag, a task is a number, and the world is the clock,
    in seconds.  The answers of the device are the double's parameters. *)
Module Stub.

Definition Gate : Type := string * list nat.
Definition BraketCircuit : Type := list string * bool.
Definition Task : Type := nat.
Definition World : Type := Z.

Definition to_braket (c : QiboCircuit.t Gate) (verbatim : bool) : PyExn + BraketCircuit :=
  if existsb (fun g => String.eqb (fst g) "TOFFOLI") (QiboCircuit.queue c)
  then inl (mkExn "UnsupportedGateError" "TOFFOLI")
  else inr (map fst (filter (fun g => negb (String.eqb (fst g) "M")) (QiboCircuit.queue c)),
            verbatim).

Definition env (run_answer : PyExn + Task) (status_at : Z -> PyExn + string)
  (result_answer : PyExn + TaskResult.t) : Env BraketCircuit Task World :=
  mkEnv (fun _ _ _ _ w => (run_answer, w))
        (fun _ w => (status_at w, w))
        (fun _ w => (result_answer, w))
        (fun secs w => w + secs).

(** A device that must not be reached. *)
Definition unreachable : Env BraketCircuit Task World :=
  env (inl (mkExn "AssertionError" "device invoked"))
      (fun _ => inl (mkExn "AssertionError" "task invoked"))
      (inl (mkExn "AssertionError" "task invoked")).

(** A job that is RUNNING until the clock reads [ready] seconds. *)
Definition status_until (ready : Z) (w : Z) : PyExn + string :=
  if Z.ltb w ready then inr "RUNNING" else inr "COMPLETED".

(** Two shots of two qubits. *)
Definition two_shots : TaskResult.t := TaskResult.mk [[0; 1]; [1; 1]].

(** A simulator whose job 7 completes after [ready] seconds. *)
Definition simulator (ready : Z) : Env BraketCircuit Task World :=
  env (inr 7%nat) (status_until ready) (inr two_shots).

(** A job that stays QUEUED. *)
Definition stuck : Env BraketCircuit Task World :=
  env (inr 7%nat) (fun _ => inr "QUEUED") (inr two_shots).

(** One rotation on qubit 0, both qubits measured. *)
Definition rx_measured : QiboCircuit.t Gate :=
  QiboCircuit.mk [("RX", [0%nat]); ("M", [0%nat; 1%nat])] [("M", [0%nat; 1%nat])].

(** The same circuit with no measurement. *)
Definition rx_unmeasured : QiboCircuit.t Gate :=
  QiboCircuit.mk [("RX", [0%nat])] [].

(** A circuit with a gate the translation does not know. *)
Definition toffoli_measured : QiboCircuit.t Gate :=
  QiboCircuit.mk [("TOFFOLI", [0%nat; 1%nat; 2%nat]); ("M", [2%nat])] [("M", [2%nat])].

(** A device that refuses the submission. *)
Definition refusing : Env BraketCircuit Task World :=
  env (inl (mkExn "ValidationException" "device is offline"))
      (fun _ => inr "COMPLETED") (inr two_shots).

(** A job whose status cannot be read any more after three seconds. *)
Definition failing_poll : Env BraketCircuit Task World :=
  env (inr 7%nat)
      (fun w => if Z.ltb w 3 then inr "QUEUED"
                else inl (mkExn "ClientError" "throttled"))
      (inr two_shots).

(** A job whose result cannot be retrieved. *)
Definition failing_result : Env BraketCircuit Task World :=
  env (inr 7%nat) (fun _ => inr "COMPLETED")
      (inl (mkExn "TimeoutError" "no result")).

(** An option for the device. *)
Definition options : Kwargs := [("poll_timeout_seconds", PyInt 60)].

(** A fresh client in a fresh world. *)
Definition start (device : option string) (verbatim_circuit verbosity : bool)
  : State BraketCircuit Task World :=
  mkState (__init__ device verbatim_circuit verbosity) 0 [].

End Stub.

(** * Properties *)

(** ** The monad *)

Section MonadLaws.

Context {BraketCircuit Task World : Type}.

Local Abbreviation M := (M BraketCircuit Task World).
Local Abbreviation State := (State BraketCircuit Task World).

Lemma state_eta (s : State) : mkState (self s) (world s) (trace s) = s.
Proof. destruct s; reflexivity. Qed.

(** The monad laws, state by state. *)
Lemma bind_ret_l {A B} (a : A) (k : A -> M B) s : bind (ret a) k s = k a s.
Proof. reflexivity. Qed.

Lemma bind_ret_r {A} (m : M A) s : bind m ret s = m s.
Proof. unfold bind, ret. destruct (m s) as [[a | e |] s']; reflexivity. Qed.

Lemma bind_assoc {A B C} (m : M A) (k : A -> M B) (h : B -> M C) s :
  bind (bind m k) h s = bind m (fun a => bind (k a) h) s.
Proof. unfold bind. destruct (m s) as [[a | e |] s']; reflexivity. Qed.

(** An exception and the end of the fuel pass through what follows. *)
Lemma bind_raise {A B} e (k : A -> M B) s : bind (raise e) k s = (Raised e, s).
Proof. reflexivity. Qed.

Lemma bind_out_of_fuel {A B} (k : A -> M B) s : bind out_of_fuel k s = (OutOfFuel, s).
Proof. reflexivity. Qed.

End MonadLaws.

Section Loop.

Context {BraketCircuit Task World : Type}.
Variable env : Env BraketCircuit Task World.

Local Abbreviation M := (M BraketCircuit Task World).
Local Abbreviation State := (State BraketCircuit Task World).

(** One unfolding of the status loop. *)
Lemma while_verbosity_eq fuel task :
  while_verbosity env fuel task =
  bind get_self (fun this =>
    if verbosity this then
      bind (state env task) (fun status =>
      bind (print ("> Status " ++ status) " ") (fun _ =>
        if String.eqb status "COMPLETED" then print LF LF
        else
          bind (for_range 0 3 (fun _ => bind (sleep env 1) (fun _ => print "." " "))) (fun _ =>
          bind (print (CR ++ str_mul " " 30) CR) (fun _ =>
            match fuel with
            | O => out_of_fuel
            | S fuel' => while_verbosity env fuel' task
            end))))
    else ret tt).
Proof. destruct fuel; reflexivity. Qed.

(** With progress reporting off the loop is not entered. *)
Lemma while_verbosity_off fuel task (s : State) :
  verbosity (self s) = false ->
  while_verbosity env fuel task s = (Returned tt, s).
Proof.
  intros Hv. rewrite while_verbosity_eq. unfold bind, get_self. simpl.
  rewrite Hv. reflexivity.
Qed.

(** A poll that raises ends the loop with that exception. *)
Lemma while_verbosity_raised fuel task (s : State) e w1 :
  verbosity (self s) = true ->
  task_state env task (world s) = (inl e, w1) ->
  while_verbosity env fuel task s =
  (Raised e, mkState (self s) w1 (trace s ++ [TaskState task])).
Proof.
  intros Hv Hp. rewrite while_verbosity_eq. unfold bind, get_self, state, call. simpl.
  rewrite Hv, Hp. reflexivity.
Qed.

(** A poll that reads COMPLETED leaves the loop. *)
Lemma while_verbosity_completed fuel task (s : State) w1 :
  verbosity (self s) = true ->
  task_state env task (world s) = (inr "COMPLETED", w1) ->
  while_verbosity env fuel task s =
  (Returned tt, mkState (self s) w1 (trace s ++ final_round task)).
Proof.
  intros Hv Hp. rewrite while_verbosity_eq. unfold bind, get_self, state, call, print. simpl.
  rewrite Hv, Hp. simpl. rewrite <- !app_assoc. reflexivity.
Qed.

(** A poll that reads another status is followed by the pause and by the
    next round, when there is fuel for one. *)
Lemma while_verbosity_waiting fuel task (s : State) tag w1 :
  verbosity (self s) = true ->
  task_state env task (world s) = (inr tag, w1) ->
  tag <> "COMPLETED" ->
  while_verbosity env fuel task s =
  let s' := mkState (self s) (pause env w1) (trace s ++ poll_round task tag) in
  match fuel with
  | O => (OutOfFuel, s')
  | S fuel' => while_verbosity env fuel' task s'
  end.
Proof.
  intros Hv Hp Hne. rewrite while_verbosity_eq.
  unfold bind, get_self, state, call, print. simpl.
  rewrite Hv, Hp. simpl.
  apply String.eqb_neq in Hne. rewrite Hne.
  unfold sleep, print, bind, ret, pause, poll_round. simpl.
  rewrite <- !app_assoc. simpl.
  destruct fuel; reflexivity.
Qed.

End Loop.

Section LoopRuns.

Context {BraketCircuit Task World : Type}.
Variable env : Env BraketCircuit Task World.

Local Abbreviation M := (M BraketCircuit Task World).
Local Abbreviation State := (State BraketCircuit Task World).

(** The state the loop is in after the rounds that read [tags]. *)
Lemma while_verbosity_polled task tags : forall (s : State) w2 fuel,
  verbosity (self s) = true ->
  polled env task (world s) tags w2 ->
  while_verbosity env (List.length tags + fuel) task s =
  while_verbosity env fuel task
    (mkState (self s) w2 (trace s ++ flat_map (poll_round task) tags)).
Proof.
  induction tags as [| tag tags IH]; intros s w2 fuel Hv Hp; inversion Hp; subst.
  - simpl. rewrite app_nil_r. rewrite state_eta. reflexivity.
  - rewrite (while_verbosity_waiting env _ task s tag w1) by assumption.
    cbn zeta. cbn [List.length Nat.add].
    rewrite (IH _ w2 fuel); [ | assumption | assumption ].
    cbn [self world trace flat_map]. rewrite <- app_assoc. reflexivity.
Qed.

(** Every run of the loop, with progress reporting on: some rounds read
    statuses other than COMPLETED, and then the fuel is used up, or a poll
    reads COMPLETED, or a poll raises. *)
Lemma while_verbosity_run task : forall fuel (s : State),
  verbosity (self s) = true ->
  exists tags w2,
    polled env task (world s) tags w2 /\
    ( (List.length tags = S fuel /\
       while_verbosity env fuel task s =
       (OutOfFuel, mkState (self s) w2 (trace s ++ flat_map (poll_round task) tags)))
      \/
      (List.length tags <= fuel)%nat /\
      ( (exists w3, task_state env task w2 = (inr "COMPLETED", w3) /\
           while_verbosity env fuel task s =
           (Returned tt,
            mkState (self s) w3
              (trace s ++ flat_map (poll_round task) tags ++ final_round task)))
        \/
        (exists e w3, task_state env task w2 = (inl e, w3) /\
           while_verbosity env fuel task s =
           (Raised e,
            mkState (self s) w3
              (trace s ++ flat_map (poll_round task) tags ++ [TaskState task]))) ) ).
Proof.
  induction fuel as [| fuel IH]; intros s Hv;
    destruct (task_state env task (world s)) as [[e | tag] w1] eqn:Hp.
  - exists [], (world s). split; [constructor |]. right. split; [simpl; lia |]. right.
    exists e, w1. split; [assumption |].
    rewrite (while_verbosity_raised env _ task s e w1) by assumption. reflexivity.
  - destruct (String.eqb_spec tag "COMPLETED") as [-> | Hne].
    + exists [], (world s). split; [constructor |]. right. split; [simpl; lia |]. left.
      exists w1. split; [assumption |].
      rewrite (while_verbosity_completed env _ task s w1) by assumption. reflexivity.
    + exists [tag], (pause env w1). split.
      * econstructor; eauto. constructor.
      * left. split; [reflexivity |].
        rewrite (while_verbosity_waiting env _ task s tag w1) by assumption.
        cbn [flat_map]. rewrite app_nil_r. reflexivity.
  - exists [], (world s). split; [constructor |]. right. split; [simpl; lia |]. right.
    exists e, w1. split; [assumption |].
    rewrite (while_verbosity_raised env _ task s e w1) by assumption. reflexivity.
  - destruct (String.eqb_spec tag "COMPLETED") as [-> | Hne].
    + exists [], (world s). split; [constructor |]. right. split; [simpl; lia |]. left.
      exists w1. split; [assumption |].
      rewrite (while_verbosity_completed env _ task s w1) by assumption. reflexivity.
    + rewrite (while_verbosity_waiting env _ task s tag w1) by assumption. cbn zeta.
      set (s1 := mkState (self s) (pause env w1) (trace s ++ poll_round task tag)).
      destruct (IH s1 Hv) as (tags & w2 & Hpolled & Hcases).
      exists (tag :: tags), w2. split; [econstructor; eauto |].
      assert (Htr : forall rest,
                 trace s1 ++ flat_map (poll_round task) tags ++ rest =
                 trace s ++ flat_map (poll_round task) (tag :: tags) ++ rest).
      { intros rest. subst s1. cbn [trace flat_map]. now rewrite <- !app_assoc. }
      destruct Hcases as [[Hlen Hrun] | [Hlen [(w3 & Hst & Hrun) | (e & w3 & Hst & Hrun)]]].
      * left. split; [simpl; lia |]. rewrite Hrun. f_equal. f_equal.
        specialize (Htr []). rewrite !app_nil_r in Htr. exact Htr.
      * right. split; [simpl; lia |]. left. exists w3. split; [assumption |].
        rewrite Hrun. f_equal. f_equal. apply Htr.
      * right. split; [simpl; lia |]. right. exists e, w3. split; [assumption |].
        rewrite Hrun. f_equal. f_equal. apply Htr.
Qed.

End LoopRuns.

Section LoopBounds.

Context {BraketCircuit Task World : Type}.
Variable env : Env BraketCircuit Task World.

Local Abbreviation M := (M BraketCircuit Task World).
Local Abbreviation State := (State BraketCircuit Task World).

(** The loop is not left while the statuses read are not COMPLETED. *)
Lemma while_verbosity_starved task tags : forall (s : State) w2 fuel,
  verbosity (self s) = true ->
  polled env task (world s) tags w2 ->
  (fuel < List.length tags)%nat ->
  exists w',
    while_verbosity env fuel task s =
    (OutOfFuel,
     mkState (self s) w' (trace s ++ flat_map (poll_round task) (firstn (S fuel) tags))).
Proof.
  induction tags as [| tag tags IH]; intros s w2 fuel Hv Hp Hlt; inversion Hp; subst.
  - simpl in Hlt. lia.
  - rewrite (while_verbosity_waiting env _ task s tag w1) by assumption. cbn zeta.
    destruct fuel as [| fuel].
    + exists (pause env w1). cbn [firstn flat_map]. rewrite app_nil_r. reflexivity.
    + set (s1 := mkState (self s) (pause env w1) (trace s ++ poll_round task tag)).
      destruct (IH s1 w2 fuel Hv) as [w' Hrun]; [assumption | simpl in Hlt; lia |].
      exists w'. rewrite Hrun. subst s1. cbn [self trace].
      change (firstn (S (S fuel)) (tag :: tags)) with (tag :: firstn (S fuel) tags).
      cbn [flat_map]. rewrite <- !app_assoc. reflexivity.
Qed.

(** A job that never completes keeps the loop running, whatever the fuel:
    with fuel for [fuel] more rounds the loop has polled [fuel + 1] times
    when the fuel runs out. *)
Lemma while_verbosity_never task (Inv : World -> Prop) :
  never_completes env task Inv ->
  forall fuel (s : State),
  verbosity (self s) = true ->
  Inv (world s) ->
  exists tags w2,
    polled env task (world s) tags w2 /\ List.length tags = S fuel /\ Inv w2 /\
    while_verbosity env fuel task s =
    (OutOfFuel, mkState (self s) w2 (trace s ++ flat_map (poll_round task) tags)).
Proof.
  intros Hnever. induction fuel as [| fuel IH]; intros s Hv Hinv;
    destruct (Hnever _ Hinv) as (tag & w1 & Hp & Hne & Hinv1);
    rewrite (while_verbosity_waiting env _ task s tag w1) by assumption; cbn zeta.
  - exists [tag], (pause env w1).
    split; [econstructor; eauto; constructor |].
    split; [reflexivity |]. split; [assumption |].
    cbn [flat_map]. rewrite app_nil_r. reflexivity.
  - set (s1 := mkState (self s) (pause env w1) (trace s ++ poll_round task tag)).
    destruct (IH s1 Hv Hinv1) as (tags & w2 & Hpolled & Hlen & Hinv2 & Hrun).
    exists (tag :: tags), w2.
    split; [econstructor; eauto |].
    split; [simpl; lia |]. split; [assumption |].
    rewrite Hrun. subst s1. cbn [self trace flat_map]. rewrite <- !app_assoc. reflexivity.
Qed.

(** The loop leaves [self] as it found it. *)
Lemma while_verbosity_self fuel task (s : State) :
  self (snd (while_verbosity env fuel task s)) = self s.
Proof.
  destruct (verbosity (self s)) eqn:Hv.
  - destruct (while_verbosity_run env task fuel s Hv)
      as (tags & w2 & _ & [[_ Hrun] | [_ [(w3 & _ & Hrun) | (e & w3 & _ & Hrun)]]]);
      rewrite Hrun; reflexivity.
  - rewrite while_verbosity_off by assumption. reflexivity.
Qed.

(** The loop submits nothing and retrieves nothing. *)
Lemma poll_round_calls task tag :
  Forall (fun ev : Event BraketCircuit Task => is_device_run ev = false /\ is_task_result ev = false)
         (poll_round task tag).
Proof. unfold poll_round. repeat constructor. Qed.

Lemma poll_rounds_calls task tags :
  Forall (fun ev : Event BraketCircuit Task => is_device_run ev = false /\ is_task_result ev = false)
         (flat_map (poll_round task) tags).
Proof.
  induction tags as [| tag tags IH]; cbn [flat_map].
  - constructor.
  - apply Forall_app. split; [apply poll_round_calls | exact IH].
Qed.

Lemma while_verbosity_trace fuel task (s : State) :
  exists added,
    trace (snd (while_verbosity env fuel task s)) = trace s ++ added /\
    Forall (fun ev : Event BraketCircuit Task => is_device_run ev = false /\ is_task_result ev = false) added.
Proof.
  destruct (verbosity (self s)) eqn:Hv.
  - destruct (while_verbosity_run env task fuel s Hv)
      as (tags & w2 & _ & [[_ Hrun] | [_ [(w3 & _ & Hrun) | (e & w3 & _ & Hrun)]]]);
      rewrite Hrun; cbn [snd trace]; eexists; (split; [reflexivity |]).
    + apply poll_rounds_calls.
    + apply Forall_app. split; [apply poll_rounds_calls | repeat constructor].
    + apply Forall_app. split; [apply poll_rounds_calls | repeat constructor].
  - rewrite while_verbosity_off by assumption. exists []. split.
    + cbn [snd]. now rewrite app_nil_r.
    + constructor.
Qed.

End LoopBounds.

Section Execute.

Context {Gate BraketCircuit Task World : Type}.
Variable to_braket : QiboCircuit.t Gate -> bool -> PyExn + BraketCircuit.
Variable env : Env BraketCircuit Task World.

Local Abbreviation M := (M BraketCircuit Task World).
Local Abbreviation State := (State BraketCircuit Task World).

Lemma has_key_false k (kwargs : Kwargs) :
  has_key k kwargs = false <-> ~ In k (keys kwargs).
Proof.
  unfold has_key. split.
  - intros Hf Hin. apply Bool.not_true_iff_false in Hf. apply Hf.
    apply existsb_exists. exists k. split; [assumption | apply String.eqb_refl].
  - intros Hnin. apply Bool.not_true_iff_false. intros Ht.
    apply existsb_exists in Ht. destruct Ht as (k' & Hin & Heq).
    apply String.eqb_eq in Heq. subst k'. contradiction.
Qed.

Lemma has_key_true k (kwargs : Kwargs) :
  has_key k kwargs = true <-> In k (keys kwargs).
Proof.
  unfold has_key. rewrite existsb_exists. split.
  - intros (k' & Hin & Heq). apply String.eqb_eq in Heq. now subst k'.
  - intros Hin. exists k. split; [assumption | apply String.eqb_refl].
Qed.

Lemma list_truthy_true {A} (l : list A) : l <> [] -> list_truthy l = true.
Proof. destruct l; [congruence | reflexivity]. Qed.

(** Leaving [nshots] out is passing 1000. *)
Lemma execute_circuit_nshots_omitted fuel c kwargs :
  execute_circuit to_braket env fuel c None kwargs =
  execute_circuit to_braket env fuel c (Some 1000) kwargs.
Proof. reflexivity. Qed.

(** Line 52: no measurement. *)
Lemma execute_circuit_unmeasured fuel c nshots kwargs (s : State) :
  QiboCircuit.measurements c = [] ->
  execute_circuit to_braket env fuel c nshots kwargs s =
  (Raised (mkExn "RuntimeError" "No measurement found in the provided circuit."), s).
Proof.
  intros Hm. unfold execute_circuit. rewrite Hm. reflexivity.
Qed.

(** Line 53: the translation raises. *)
Lemma execute_circuit_untranslated fuel c nshots kwargs (s : State) e :
  QiboCircuit.measurements c <> [] ->
  to_braket c (verbatim_circuit (self s)) = inl e ->
  execute_circuit to_braket env fuel c nshots kwargs s = (Raised e, s).
Proof.
  intros Hm Ht. unfold execute_circuit. rewrite (list_truthy_true _ Hm).
  unfold bind, ret, get_self, lift. cbn. rewrite Ht. reflexivity.
Qed.

(** Line 55: [kwargs] has a [shots] of its own. *)
Lemma execute_circuit_shots_twice fuel c nshots kwargs (s : State) bc :
  QiboCircuit.measurements c <> [] ->
  to_braket c (verbatim_circuit (self s)) = inr bc ->
  In "shots" (keys kwargs) ->
  execute_circuit to_braket env fuel c nshots kwargs s =
  (Raised (mkExn "TypeError" "run() got multiple values for keyword argument 'shots'"), s).
Proof.
  intros Hm Ht Hk. apply has_key_true in Hk.
  unfold execute_circuit. rewrite (list_truthy_true _ Hm).
  unfold bind, ret, get_self, lift, run. cbn. rewrite Ht. cbn. rewrite Hk. reflexivity.
Qed.

(** Line 55: the device refuses the submission. *)
Lemma execute_circuit_refused fuel c n kwargs (s : State) bc e w1 :
  QiboCircuit.measurements c <> [] ->
  to_braket c (verbatim_circuit (self s)) = inr bc ->
  ~ In "shots" (keys kwargs) ->
  device_run env (device (self s)) bc n kwargs (world s) = (inl e, w1) ->
  execute_circuit to_braket env fuel c (Some n) kwargs s =
  (Raised e, mkState (self s) w1 (trace s ++ [DeviceRun (device (self s)) bc n kwargs])).
Proof.
  intros Hm Ht Hk Hr. apply has_key_false in Hk.
  unfold execute_circuit. rewrite (list_truthy_true _ Hm).
  unfold bind, ret, get_self, lift, run, call. cbn. rewrite Ht. cbn. rewrite Hk, Hr.
  reflexivity.
Qed.

(** Lines 55-72: the device accepts the submission. *)
Lemma execute_circuit_submitted fuel c n kwargs (s : State) bc task w1 :
  QiboCircuit.measurements c <> [] ->
  to_braket c (verbatim_circuit (self s)) = inr bc ->
  ~ In "shots" (keys kwargs) ->
  device_run env (device (self s)) bc n kwargs (world s) = (inr task, w1) ->
  execute_circuit to_braket env fuel c (Some n) kwargs s =
  match while_verbosity env fuel task
          (mkState (self s) w1 (trace s ++ [DeviceRun (device (self s)) bc n kwargs])) with
  | (Returned _, s2) =>
      let s3 w3 := mkState (self s2) w3 (trace s2 ++ [TaskResultCall task]) in
      match task_result env task (world s2) with
      | (inl e, w3) => (Raised e, s3 w3)
      | (inr res, w3) =>
          (Returned (MeasurementOutcomes.mk (QiboCircuit.measurements c) (self s2)
                       (TaskResult.measurements res) n), s3 w3)
      end
  | (Raised e, s2) => (Raised e, s2)
  | (OutOfFuel, s2) => (OutOfFuel, s2)
  end.
Proof.
  intros Hm Ht Hk Hr. apply has_key_false in Hk.
  unfold execute_circuit. rewrite (list_truthy_true _ Hm).
  unfold bind, ret, get_self, lift, run, result, call. cbn. rewrite Ht. cbn. rewrite Hk, Hr.
  destruct (while_verbosity env fuel task _) as [[[] | e |] s2]; try reflexivity.
  destruct (task_result env task (world s2)) as [[e | res] w3]; reflexivity.
Qed.

End Execute.

Lemma measured_or_not {Gate} (c : QiboCircuit.t Gate) :
  QiboCircuit.measurements c = [] \/ QiboCircuit.measurements c <> [].
Proof. destruct (QiboCircuit.measurements c); [left; reflexivity | right; discriminate]. Qed.

(** The five ways through [execute_circuit], by the first thing that
    stops it. *)
Ltac execute_paths c s n kwargs Hm Ht Hk Hr :=
  match goal with
  | |- context [execute_circuit ?tb ?env ?fuel c (Some n) kwargs s] =>
      destruct (measured_or_not c) as [Hm | Hm];
      [ rewrite (execute_circuit_unmeasured tb env fuel c (Some n) kwargs s Hm)
      | let e := fresh "e" in
        let bc := fresh "bc" in
        destruct (tb c (verbatim_circuit (self s))) as [e | bc] eqn:Ht;
        [ rewrite (execute_circuit_untranslated tb env fuel c (Some n) kwargs s e Hm Ht)
        | destruct (in_dec string_dec "shots" (keys kwargs)) as [Hk | Hk];
          [ rewrite (execute_circuit_shots_twice tb env fuel c (Some n) kwargs s bc Hm Ht Hk)
          | let task := fresh "task" in
            let w1 := fresh "w1" in
            destruct (device_run env (device (self s)) bc n kwargs (world s))
              as [[e | task] w1] eqn:Hr;
            [ rewrite (execute_circuit_refused tb env fuel c n kwargs s bc e w1 Hm Ht Hk Hr)
            | rewrite (execute_circuit_submitted tb env fuel c n kwargs s bc task w1 Hm Ht Hk Hr)
            ] ] ] ]
  end.

Section Frame.

Context {Gate BraketCircuit Task World : Type}.
Variable to_braket : QiboCircuit.t Gate -> bool -> PyExn + BraketCircuit.
Variable env : Env BraketCircuit Task World.

Local Abbreviation State := (State BraketCircuit Task World).

Lemma execute_circuit_self fuel c nshots kwargs (s : State) :
  self (snd (execute_circuit to_braket env fuel c nshots kwargs s)) = self s.
Proof.
  destruct nshots as [n |]; [| rewrite execute_circuit_nshots_omitted; set (n := 1000)];
    (execute_paths c s n kwargs Hm Ht Hk Hr; try reflexivity);
    match goal with
    | |- context [while_verbosity env fuel ?t ?s1] =>
        pose proof (while_verbosity_self env fuel t s1) as Hself;
        destruct (while_verbosity env fuel t s1) as [[[] | e' |] s2]
    end; cbn [snd self] in *; try assumption;
    destruct (task_result env _ (world s2)) as [[e' | res] w3]; cbn [snd self]; assumption.
Qed.

End Frame.

Section Traces.

Context {Gate BraketCircuit Task World : Type}.
Variable to_braket : QiboCircuit.t Gate -> bool -> PyExn + BraketCircuit.
Variable env : Env BraketCircuit Task World.

Local Abbreviation State := (State BraketCircuit Task World).

(** What a call adds to the trace: nothing, or one submission followed by
    calls that are not submissions. *)
Lemma execute_circuit_trace fuel c n kwargs (s : State) :
  trace (snd (execute_circuit to_braket env fuel c (Some n) kwargs s)) = trace s \/
  exists bc rest,
    QiboCircuit.measurements c <> [] /\
    to_braket c (verbatim_circuit (self s)) = inr bc /\
    ~ In "shots" (keys kwargs) /\
    trace (snd (execute_circuit to_braket env fuel c (Some n) kwargs s)) =
      trace s ++ DeviceRun (device (self s)) bc n kwargs :: rest /\
    Forall (fun ev : Event BraketCircuit Task => is_device_run ev = false) rest.
Proof.
  execute_paths c s n kwargs Hm Ht Hk Hr; try (left; reflexivity).
  - right. exists bc, []. cbn [snd trace].
    repeat apply conj; try assumption; try reflexivity. constructor.
  - right. exists bc.
    match goal with
    | |- context [while_verbosity env fuel ?t ?s1] =>
        destruct (while_verbosity_trace env fuel t s1) as (added & Htr & Hadded);
        destruct (while_verbosity env fuel t s1) as [[[] | e' |] s2]
    end; cbn [snd trace] in Htr.
    + assert (Hrest : Forall (fun ev : Event BraketCircuit Task => is_device_run ev = false)
                        (added ++ [TaskResultCall task])).
      { apply Forall_app. split.
        - eapply Forall_impl; [| exact Hadded]. now intros ev [H _].
        - repeat constructor. }
      exists (added ++ [TaskResultCall task]).
      repeat apply conj; try assumption; try reflexivity.
      destruct (task_result env task (world s2)) as [[e' | res] w3]; cbn [snd trace];
        rewrite Htr, <- !app_assoc; reflexivity.
    + exists added. repeat apply conj; try assumption; try reflexivity.
      * cbn [snd]. rewrite Htr, <- app_assoc. reflexivity.
      * eapply Forall_impl; [| exact Hadded]. now intros ev [H _].
    + exists added. repeat apply conj; try assumption; try reflexivity.
      * cbn [snd]. rewrite Htr, <- app_assoc. reflexivity.
      * eapply Forall_impl; [| exact Hadded]. now intros ev [H _].
Qed.

End Traces.

Section LoopEnds.

Context {BraketCircuit Task World : Type}.
Variable env : Env BraketCircuit Task World.

Local Abbreviation State := (State BraketCircuit Task World).

(** Rounds that read [tags], then a poll that reads COMPLETED. *)
Lemma while_verbosity_polled_completed fuel task tags (s : State) w2 w3 :
  verbosity (self s) = true ->
  polled env task (world s) tags w2 ->
  task_state env task w2 = (inr "COMPLETED", w3) ->
  (List.length tags <= fuel)%nat ->
  while_verbosity env fuel task s =
  (Returned tt,
   mkState (self s) w3 (trace s ++ flat_map (poll_round task) tags ++ final_round task)).
Proof.
  intros Hv Hp Hc Hlen.
  replace fuel with (List.length tags + (fuel - List.length tags))%nat by lia.
  rewrite (while_verbosity_polled env task tags s w2) by assumption.
  rewrite (while_verbosity_completed env _ task _ w3) by assumption.
  cbn [self trace]. rewrite <- app_assoc. reflexivity.
Qed.

(** Rounds that read [tags], then a poll that raises. *)
Lemma while_verbosity_polled_raised fuel task tags (s : State) w2 e w3 :
  verbosity (self s) = true ->
  polled env task (world s) tags w2 ->
  task_state env task w2 = (inl e, w3) ->
  (List.length tags <= fuel)%nat ->
  while_verbosity env fuel task s =
  (Raised e,
   mkState (self s) w3 (trace s ++ flat_map (poll_round task) tags ++ [TaskState task])).
Proof.
  intros Hv Hp Hc Hlen.
  replace fuel with (List.length tags + (fuel - List.length tags))%nat by lia.
  rewrite (while_verbosity_polled env task tags s w2) by assumption.
  rewrite (while_verbosity_raised env _ task _ e w3) by assumption.
  cbn [self trace]. rewrite <- app_assoc. reflexivity.
Qed.

End LoopEnds.

Section Inversion.

Context {Gate BraketCircuit Task World : Type}.
Variable to_braket : QiboCircuit.t Gate -> bool -> PyExn + BraketCircuit.
Variable env : Env BraketCircuit Task World.

Local Abbreviation State := (State BraketCircuit Task World).

(** An exception out of the loop is one a status poll answered with. *)
Lemma while_verbosity_raised_inv fuel task (s : State) e s' :
  while_verbosity env fuel task s = (Raised e, s') ->
  exists w w', task_state env task w = (inl e, w').
Proof.
  destruct (verbosity (self s)) eqn:Hv.
  - destruct (while_verbosity_run env task fuel s Hv)
      as (tags & w2 & _ & [[_ Hrun] | [_ [(w3 & _ & Hrun) | (e' & w3 & Hst & Hrun)]]]);
      rewrite Hrun; intros Heq; inversion Heq; subst.
    exists w2, w3. exact Hst.
  - rewrite while_verbosity_off by assumption. discriminate.
Qed.

(** A call that passes the guard, the translation and the keyword check
    submits once, with the arguments it was given. *)
Lemma execute_circuit_submits fuel c n kwargs (s : State) bc :
  QiboCircuit.measurements c <> [] ->
  to_braket c (verbatim_circuit (self s)) = inr bc ->
  ~ In "shots" (keys kwargs) ->
  exists rest,
    trace (snd (execute_circuit to_braket env fuel c (Some n) kwargs s)) =
      trace s ++ DeviceRun (device (self s)) bc n kwargs :: rest /\
    Forall (fun ev : Event BraketCircuit Task => is_device_run ev = false) rest.
Proof.
  intros Hm Ht Hk.
  destruct (device_run env (device (self s)) bc n kwargs (world s))
    as [[e | task] w1] eqn:Hr.
  - rewrite (execute_circuit_refused to_braket env fuel c n kwargs s bc e w1 Hm Ht Hk Hr).
    exists []. split; [reflexivity | constructor].
  - rewrite (execute_circuit_submitted to_braket env fuel c n kwargs s bc task w1 Hm Ht Hk Hr).
    match goal with
    | |- context [while_verbosity env fuel ?t ?s1] =>
        destruct (while_verbosity_trace env fuel t s1) as (added & Htr & Hadded);
        destruct (while_verbosity env fuel t s1) as [[[] | e' |] s2]
    end; cbn [snd trace] in Htr.
    + exists (added ++ [TaskResultCall task]). split.
      * destruct (task_result env task (world s2)) as [[e' | res] w3]; cbn [snd trace];
          rewrite Htr, <- !app_assoc; reflexivity.
      * apply Forall_app. split; [| repeat constructor].
        eapply Forall_impl; [| exact Hadded]. now intros ev [H _].
    + exists added. split.
      * cbn [snd]. rewrite Htr, <- app_assoc. reflexivity.
      * eapply Forall_impl; [| exact Hadded]. now intros ev [H _].
    + exists added. split.
      * cbn [snd]. rewrite Htr, <- app_assoc. reflexivity.
      * eapply Forall_impl; [| exact Hadded]. now intros ev [H _].
Qed.

(** A call that returns went all the way: guard, translation, submission,
    loop, retrieval. *)
Lemma execute_circuit_returned fuel c n kwargs (s : State) r s' :
  execute_circuit to_braket env fuel c (Some n) kwargs s = (Returned r, s') ->
  QiboCircuit.measurements c <> [] /\
  ~ In "shots" (keys kwargs) /\
  exists bc task w1 s2 res,
    to_braket c (verbatim_circuit (self s)) = inr bc /\
    device_run env (device (self s)) bc n kwargs (world s) = (inr task, w1) /\
    while_verbosity env fuel task
      (mkState (self s) w1 (trace s ++ [DeviceRun (device (self s)) bc n kwargs]))
      = (Returned tt, s2) /\
    task_result env task (world s2) = (inr res, world s') /\
    r = MeasurementOutcomes.mk (QiboCircuit.measurements c) (self s)
          (TaskResult.measurements res) n /\
    trace s' = trace s2 ++ [TaskResultCall task].
Proof.
  execute_paths c s n kwargs Hm Ht Hk Hr; try discriminate.
  match goal with
  | |- context [while_verbosity env fuel ?t ?s1] =>
      pose proof (while_verbosity_self env fuel t s1) as Hself;
      destruct (while_verbosity env fuel t s1) as [[[] | e' |] s2] eqn:Hloop
  end; try discriminate.
  cbn [snd self] in Hself. cbn zeta.
  destruct (task_result env task (world s2)) as [[e' | res] w3] eqn:Hres; try discriminate.
  intros Heq. inversion Heq; subst r s'; clear Heq.
  split; [assumption |]. split; [assumption |].
  exists bc, task, w1, s2, res. rewrite Hself. cbn [world trace].
  repeat apply conj; reflexivity || assumption.
Qed.

(** An exception out of a call that passed the guard, the translation and
    the keyword check is one the SDK answered with. *)
Lemma execute_circuit_raised fuel c n kwargs (s : State) bc e s' :
  QiboCircuit.measurements c <> [] ->
  to_braket c (verbatim_circuit (self s)) = inr bc ->
  ~ In "shots" (keys kwargs) ->
  execute_circuit to_braket env fuel c (Some n) kwargs s = (Raised e, s') ->
  (exists w1, device_run env (device (self s)) bc n kwargs (world s) = (inl e, w1)) \/
  (exists task w w',
     task_state env task w = (inl e, w') \/ task_result env task w = (inl e, w')).
Proof.
  intros Hm Ht Hk.
  destruct (device_run env (device (self s)) bc n kwargs (world s))
    as [[e0 | task] w1] eqn:Hr.
  - rewrite (execute_circuit_refused to_braket env fuel c n kwargs s bc e0 w1 Hm Ht Hk Hr).
    intros Heq. inversion Heq; subst. left. now exists w1.
  - rewrite (execute_circuit_submitted to_braket env fuel c n kwargs s bc task w1 Hm Ht Hk Hr).
    match goal with
    | |- context [while_verbosity env fuel ?t ?s1] =>
        destruct (while_verbosity env fuel t s1) as [[[] | e' |] s2] eqn:Hloop
    end; try discriminate.
    + cbn zeta.
      destruct (task_result env task (world s2)) as [[e' | res] w3] eqn:Hres;
        try discriminate.
      intros Heq. inversion Heq; subst. right. exists task, (world s2), w3. now right.
    + intros Heq. inversion Heq; subst.
      destruct (while_verbosity_raised_inv fuel task _ e s' Hloop) as (w & w' & Hst).
      right. exists task, w, w'. now left.
Qed.

Lemma filter_none {A} (f : A -> bool) (l : list A) :
  Forall (fun x => f x = false) l -> filter f l = [].
Proof.
  induction 1 as [| x l Hx _ IH]; cbn [filter]; [reflexivity |]. now rewrite Hx.
Qed.

End Inversion.

(** * The claims *)

(** ** Construction *)

(** C2. The device selector: no [device] argument gives the default local
    simulator [LocalSimulator()], the literal [braket_dm] gives
    [LocalSimulator("braket_dm")], and any other non-empty string gives
    [AwsDevice] of that string; the two flags are stored as given. *)
Theorem device_selector_resolution (vc vb : bool) :
  device (__init__ None vc vb) = LocalSimulator None /\
  device (__init__ (Some "braket_dm") vc vb) = LocalSimulator (Some "braket_dm") /\
  (forall arn : string,
     arn <> "braket_dm" -> arn <> EmptyString ->
     device (__init__ (Some arn) vc vb) = AwsDevice arn) /\
  (forall d : option string,
     verbatim_circuit (__init__ d vc vb) = vc /\ verbosity (__init__ d vc vb) = vb).
Proof.
  split; [reflexivity |]. split; [reflexivity |]. split.
  - intros arn Hdm Hne. unfold __init__. cbn [device].
    apply String.eqb_neq in Hdm. rewrite Hdm.
    destruct arn as [| a arn]; [congruence | reflexivity].
  - intros d. split; reflexivity.
Qed.

Lemma device_selector_resolution_witness :
  device (__init__ (Some "arn:aws:braket:::device/quantum-simulator/amazon/sv1") false false)
  = AwsDevice "arn:aws:braket:::device/quantum-simulator/amazon/sv1".
Proof.
  apply (proj1 (proj2 (proj2 (device_selector_resolution false false)))); discriminate.
Defined.

Section Claims.

Context {Gate BraketCircuit Task World : Type}.
Variable to_braket : QiboCircuit.t Gate -> bool -> PyExn + BraketCircuit.
Variable env : Env BraketCircuit Task World.

Local Abbreviation State := (State BraketCircuit Task World).

(** ** The guard and the translation *)

(** C1. A circuit with an empty measurement list: [execute_circuit] raises
    RuntimeError and ends in the state it started from.  The world is
    untouched and the trace has no new call, so nothing was translated or
    submitted, [device.run] was not called and no task exists. *)
Theorem empty_measurements_raise_before_device fuel c nshots kwargs (s : State) :
  QiboCircuit.measurements c = [] ->
  execute_circuit to_braket env fuel c nshots kwargs s =
  (Raised (mkExn "RuntimeError" "No measurement found in the provided circuit."), s).
Proof.
  intros Hm. unfold execute_circuit. rewrite Hm. reflexivity.
Qed.

(** C4. The translation, called with the client's [verbatim_circuit] flag,
    comes before the submission: when it raises, [execute_circuit] raises
    the same exception in the state it started from (no call was made, so
    [device.run] was not), and a submission the call makes carries the
    circuit the translation returned. *)
Theorem translation_precedes_submission fuel c nshots kwargs (s : State) :
  QiboCircuit.measurements c <> [] ->
  (forall e,
     to_braket c (verbatim_circuit (self s)) = inl e ->
     execute_circuit to_braket env fuel c nshots kwargs s = (Raised e, s)) /\
  (forall added d bc n kw,
     trace (snd (execute_circuit to_braket env fuel c nshots kwargs s)) = trace s ++ added ->
     In (DeviceRun d bc n kw) added ->
     to_braket c (verbatim_circuit (self s)) = inr bc).
Proof.
  intros Hm. split.
  - intros e Ht. now apply execute_circuit_untranslated.
  - intros added d bc n kw Htr Hin.
    assert (Hsome : exists n0, execute_circuit to_braket env fuel c nshots kwargs s =
                               execute_circuit to_braket env fuel c (Some n0) kwargs s).
    { destruct nshots as [n0 |]; [exists n0 | exists 1000]; reflexivity. }
    destruct Hsome as [n0 Hsome]. rewrite Hsome in Htr.
    destruct (execute_circuit_trace to_braket env fuel c n0 kwargs s)
      as [Hsame | (bc0 & rest & _ & Ht & _ & Hadd & Hrest)].
    + rewrite Hsame in Htr. rewrite <- (app_nil_r (trace s)) in Htr at 1.
      apply app_inv_head in Htr. subst added. contradiction.
    + rewrite Hadd in Htr. apply app_inv_head in Htr. subst added.
      destruct Hin as [Heq | Hin].
      * inversion Heq; subst. exact Ht.
      * rewrite Forall_forall in Hrest. apply Hrest in Hin. discriminate.
Qed.

(** ** The frame *)

(** C8. [execute_circuit] leaves the client as it found it, however the
    call ends: [self] is the same record afterwards, so its device, its two
    flags and its [name] are unchanged and it has no other attribute; a
    second call on the client behaves as it would on the client as built. *)
Theorem execute_circuit_retains_no_state fuel c nshots kwargs (s : State) :
  let s' := snd (execute_circuit to_braket env fuel c nshots kwargs s) in
  self s' = self s /\
  device (self s') = device (self s) /\
  verbatim_circuit (self s') = verbatim_circuit (self s) /\
  verbosity (self s') = verbosity (self s) /\
  (forall fuel2 c2 nshots2 kwargs2,
     execute_circuit to_braket env fuel2 c2 nshots2 kwargs2 s' =
     execute_circuit to_braket env fuel2 c2 nshots2 kwargs2
       (mkState (self s) (world s') (trace s'))).
Proof.
  intros s'. assert (Hself : self s' = self s) by apply execute_circuit_self.
  repeat split; try (rewrite Hself; reflexivity).
  intros fuel2 c2 nshots2 kwargs2. rewrite <- Hself. now rewrite state_eta.
Qed.

(** ** The result *)

(** C3. A call that returns, returns a container that holds the circuit's
    own measurement list, the shot count that was asked for, and the
    [measurements] of what [task.result()] answered for the task that
    [device.run] returned; the trace is that submission, the calls of the
    status loop, and that one retrieval. *)
Theorem result_container_combines fuel c nshots kwargs (s : State) r s' :
  execute_circuit to_braket env fuel c nshots kwargs s = (Returned r, s') ->
  let n := match nshots with Some n => n | None => 1000 end in
  MeasurementOutcomes.measurements r = QiboCircuit.measurements c /\
  MeasurementOutcomes.nshots r = n /\
  MeasurementOutcomes.backend r = self s /\
  exists bc task w1 w2 res polling,
    to_braket c (verbatim_circuit (self s)) = inr bc /\
    device_run env (device (self s)) bc n kwargs (world s) = (inr task, w1) /\
    task_result env task w2 = (inr res, world s') /\
    MeasurementOutcomes.samples r = TaskResult.measurements res /\
    trace s' = trace s ++ [DeviceRun (device (self s)) bc n kwargs] ++ polling
                       ++ [TaskResultCall task] /\
    Forall (fun ev : Event BraketCircuit Task =>
              is_device_run ev = false /\ is_task_result ev = false) polling.
Proof.
  intros Hrun n.
  assert (Hsome : execute_circuit to_braket env fuel c nshots kwargs s =
                  execute_circuit to_braket env fuel c (Some n) kwargs s).
  { destruct nshots; reflexivity. }
  rewrite Hsome in Hrun. clear Hsome.
  destruct (execute_circuit_returned to_braket env fuel c n kwargs s r s' Hrun)
    as (_ & _ & bc & task & w1 & s2 & res & Ht & Hr & Hloop & Hres & -> & Htr).
  cbn [MeasurementOutcomes.measurements MeasurementOutcomes.nshots
       MeasurementOutcomes.backend MeasurementOutcomes.samples].
  repeat apply conj; try reflexivity.
  match type of Hloop with
  | while_verbosity env fuel ?t ?s1 = _ =>
      destruct (while_verbosity_trace env fuel t s1) as (polling & Hpoll & Hpolling)
  end.
  rewrite Hloop in Hpoll. cbn [snd trace] in Hpoll.
  exists bc, task, w1, (world s2), res, polling.
  repeat apply conj; try reflexivity; try assumption.
  rewrite Htr, Hpoll, <- !app_assoc. reflexivity.
Qed.

(** ** The status loop *)

(** C5. With progress reporting on and a task submitted, the call polls
    the task's status again and again: each round that reads a status other
    than COMPLETED prints it and pauses for three sleeps of one second
    before the next poll ([poll_round]).  The loop is left at the first poll
    that reads COMPLETED, and not before: with fewer rounds of fuel than
    statuses to read the call is still in the loop.  For a job that never
    reads COMPLETED the call is in the loop whatever the fuel, having polled
    once more than the fuel counts. *)
Theorem status_loop_polls_until_completed fuel c n kwargs (s : State) bc task w1 :
  verbosity (self s) = true ->
  QiboCircuit.measurements c <> [] ->
  to_braket c (verbatim_circuit (self s)) = inr bc ->
  ~ In "shots" (keys kwargs) ->
  device_run env (device (self s)) bc n kwargs (world s) = (inr task, w1) ->
  let submitted := trace s ++ [DeviceRun (device (self s)) bc n kwargs] in
  let out := execute_circuit to_braket env fuel c (Some n) kwargs s in
  (forall tags w2 w3,
     polled env task w1 tags w2 ->
     task_state env task w2 = (inr "COMPLETED", w3) ->
     (List.length tags <= fuel)%nat ->
     let done w4 :=
       mkState (self s) w4
         (submitted ++ flat_map (poll_round task) tags ++ final_round task
                    ++ [TaskResultCall task]) in
     out = match task_result env task w3 with
           | (inl e, w4) => (Raised e, done w4)
           | (inr res, w4) =>
               (Returned (MeasurementOutcomes.mk (QiboCircuit.measurements c) (self s)
                            (TaskResult.measurements res) n), done w4)
           end) /\
  (forall tags w2,
     polled env task w1 tags w2 ->
     (fuel < List.length tags)%nat ->
     fst out = OutOfFuel /\
     trace (snd out) = submitted ++ flat_map (poll_round task) (firstn (S fuel) tags)) /\
  (forall Inv : World -> Prop,
     never_completes env task Inv -> Inv w1 ->
     fst out = OutOfFuel /\
     exists tags,
       List.length tags = S fuel /\
       trace (snd out) = submitted ++ flat_map (poll_round task) tags).
Proof.
  intros Hv Hm Ht Hk Hr submitted out. subst out.
  rewrite (execute_circuit_submitted to_braket env fuel c n kwargs s bc task w1 Hm Ht Hk Hr).
  fold submitted. set (s1 := mkState (self s) w1 submitted).
  split; [| split].
  - intros tags w2 w3 Hp Hc Hlen.
    rewrite (while_verbosity_polled_completed env fuel task tags s1 w2 w3) by assumption.
    cbn [world self trace]. subst s1. cbn [self trace].
    destruct (task_result env task w3) as [[e | res] w4];
      rewrite <- !app_assoc; reflexivity.
  - intros tags w2 Hp Hlt.
    destruct (while_verbosity_starved env task tags s1 w2 fuel Hv Hp Hlt) as [w' Hrun].
    rewrite Hrun. split; reflexivity.
  - intros Inv Hnever Hinv.
    destruct (while_verbosity_never env task Inv Hnever fuel s1 Hv Hinv)
      as (tags & w2 & _ & Hlen & _ & Hrun).
    rewrite Hrun. split; [reflexivity |]. exists tags. split; [exact Hlen | reflexivity].
Qed.

(** ** Errors of the SDK *)

(** C6. An exception the SDK answers with, at the submission, at a status
    poll or at the retrieval, is the exception [execute_circuit] raises, and
    the trace ends with the call that raised: nothing is caught, tried again
    or wrapped.  A call that returns has retrieved a result: its container
    is the full one. *)
Theorem sdk_errors_propagate fuel c n kwargs (s : State) bc :
  QiboCircuit.measurements c <> [] ->
  to_braket c (verbatim_circuit (self s)) = inr bc ->
  ~ In "shots" (keys kwargs) ->
  let submitted := trace s ++ [DeviceRun (device (self s)) bc n kwargs] in
  let out := execute_circuit to_braket env fuel c (Some n) kwargs s in
  (forall e w1,
     device_run env (device (self s)) bc n kwargs (world s) = (inl e, w1) ->
     out = (Raised e, mkState (self s) w1 submitted)) /\
  (forall task w1 tags w2 e w3,
     device_run env (device (self s)) bc n kwargs (world s) = (inr task, w1) ->
     verbosity (self s) = true ->
     polled env task w1 tags w2 ->
     task_state env task w2 = (inl e, w3) ->
     (List.length tags <= fuel)%nat ->
     out = (Raised e,
            mkState (self s) w3
              (submitted ++ flat_map (poll_round task) tags ++ [TaskState task]))) /\
  (forall task w1 s2 e w3,
     device_run env (device (self s)) bc n kwargs (world s) = (inr task, w1) ->
     while_verbosity env fuel task (mkState (self s) w1 submitted) = (Returned tt, s2) ->
     task_result env task (world s2) = (inl e, w3) ->
     out = (Raised e, mkState (self s) w3 (trace s2 ++ [TaskResultCall task]))) /\
  (forall r s',
     out = (Returned r, s') ->
     exists task w1 w2 res,
       device_run env (device (self s)) bc n kwargs (world s) = (inr task, w1) /\
       task_result env task w2 = (inr res, world s') /\
       r = MeasurementOutcomes.mk (QiboCircuit.measurements c) (self s)
             (TaskResult.measurements res) n).
Proof.
  intros Hm Ht Hk submitted out. subst out. repeat apply conj.
  - intros e w1 Hr. now apply execute_circuit_refused.
  - intros task w1 tags w2 e w3 Hr Hv Hp He Hlen.
    rewrite (execute_circuit_submitted to_braket env fuel c n kwargs s bc task w1 Hm Ht Hk Hr).
    fold submitted.
    rewrite (while_verbosity_polled_raised env fuel task tags _ w2 e w3) by assumption.
    reflexivity.
  - intros task w1 s2 e w3 Hr Hloop Hres.
    rewrite (execute_circuit_submitted to_braket env fuel c n kwargs s bc task w1 Hm Ht Hk Hr).
    fold submitted. rewrite Hloop. cbn zeta. rewrite Hres.
    pose proof (while_verbosity_self env fuel task (mkState (self s) w1 submitted)) as Hself.
    rewrite Hloop in Hself. cbn [snd self] in Hself. rewrite Hself. reflexivity.
  - intros r s' Hrun.
    destruct (execute_circuit_returned to_braket env fuel c n kwargs s r s' Hrun)
      as (_ & _ & bc' & task & w1 & s2 & res & Ht' & Hr & _ & Hres & -> & _).
    rewrite Ht in Ht'. inversion Ht'; subst bc'.
    exists task, w1, (world s2), res. repeat apply conj; reflexivity || assumption.
Qed.

(** ** What is passed on *)

(** C7, as amended. A [kwargs] bag with no entry named [shots] reaches
    [device.run] as it was given, with the translated circuit and the shot
    count: the call submits once, and the submission carries [kwargs]
    itself.  A bag with an entry named [shots] does not reach the device:
    the call raises TypeError in the state it started from. *)
Theorem kwargs_forwarded_verbatim fuel c n kwargs (s : State) bc :
  QiboCircuit.measurements c <> [] ->
  to_braket c (verbatim_circuit (self s)) = inr bc ->
  let out := execute_circuit to_braket env fuel c (Some n) kwargs s in
  (~ In "shots" (keys kwargs) ->
   exists added,
     trace (snd out) = trace s ++ added /\
     filter is_device_run added = [DeviceRun (device (self s)) bc n kwargs]) /\
  (In "shots" (keys kwargs) ->
   out = (Raised (mkExn "TypeError" "run() got multiple values for keyword argument 'shots'"),
          s)).
Proof.
  intros Hm Ht out. subst out. split.
  - intros Hk.
    destruct (execute_circuit_submits to_braket env fuel c n kwargs s bc Hm Ht Hk)
      as (rest & Htr & Hrest).
    exists (DeviceRun (device (self s)) bc n kwargs :: rest). split; [exact Htr |].
    cbn [filter is_device_run]. now rewrite (filter_none _ _ Hrest).
  - intros Hk. now apply (execute_circuit_shots_twice to_braket env fuel c (Some n) kwargs s bc).
Qed.

(** C9. A call that leaves the shot count out is the call with 1000 shots:
    a submission it makes asks for 1000 shots, and a container it returns
    records 1000 shots and follows a submission that asked for them. *)
Theorem default_shot_count fuel c kwargs (s : State) :
  let out := execute_circuit to_braket env fuel c None kwargs s in
  out = execute_circuit to_braket env fuel c (Some 1000) kwargs s /\
  (forall added d bc n kw,
     trace (snd out) = trace s ++ added ->
     In (DeviceRun d bc n kw) added ->
     n = 1000) /\
  (forall r s',
     out = (Returned r, s') ->
     MeasurementOutcomes.nshots r = 1000 /\
     exists bc rest,
       trace s' = trace s ++ DeviceRun (device (self s)) bc 1000 kwargs :: rest).
Proof.
  intros out. subst out. rewrite execute_circuit_nshots_omitted.
  split; [reflexivity |]. split.
  - intros added d bc n kw Htr Hin.
    destruct (execute_circuit_trace to_braket env fuel c 1000 kwargs s)
      as [Hsame | (bc0 & rest & _ & _ & _ & Hadd & Hrest)].
    + rewrite Hsame in Htr. rewrite <- (app_nil_r (trace s)) in Htr at 1.
      apply app_inv_head in Htr. subst added. contradiction.
    + rewrite Hadd in Htr. apply app_inv_head in Htr. subst added.
      destruct Hin as [Heq | Hin].
      * now inversion Heq.
      * rewrite Forall_forall in Hrest. apply Hrest in Hin. discriminate.
  - intros r s' Hrun.
    destruct (execute_circuit_returned to_braket env fuel c 1000 kwargs s r s' Hrun)
      as (Hm & Hk & bc & task & w1 & s2 & res & Ht & _ & _ & _ & -> & _).
    split; [reflexivity |].
    destruct (execute_circuit_submits to_braket env fuel c 1000 kwargs s bc Hm Ht Hk)
      as (rest & Htr & _).
    rewrite Hrun in Htr. exists bc, rest. exact Htr.
Qed.

(** C10. The shot count is not looked at.  For a circuit with measurements
    and any [n], zero and negative ones too: the submission, which is made
    when the translation returns and [kwargs] has no [shots] of its own,
    asks for [n] shots; no submission asks for another count; a container
    the call returns records [n]; and an exception the call raises is the
    translation's, or the TypeError of a [shots] entry in [kwargs], or one
    the SDK answered with: none is about [n]. *)
Theorem shot_count_is_not_validated fuel c n kwargs (s : State) :
  QiboCircuit.measurements c <> [] ->
  let out := execute_circuit to_braket env fuel c (Some n) kwargs s in
  (forall bc,
     to_braket c (verbatim_circuit (self s)) = inr bc ->
     ~ In "shots" (keys kwargs) ->
     exists rest,
       trace (snd out) = trace s ++ DeviceRun (device (self s)) bc n kwargs :: rest) /\
  (forall added d bc n' kw,
     trace (snd out) = trace s ++ added ->
     In (DeviceRun d bc n' kw) added ->
     n' = n) /\
  (forall r s', out = (Returned r, s') -> MeasurementOutcomes.nshots r = n) /\
  (forall e s',
     out = (Raised e, s') ->
     to_braket c (verbatim_circuit (self s)) = inl e \/
     (In "shots" (keys kwargs) /\ exn_class e = "TypeError") \/
     (exists bc w1,
        device_run env (device (self s)) bc n kwargs (world s) = (inl e, w1)) \/
     (exists task w w',
        task_state env task w = (inl e, w') \/ task_result env task w = (inl e, w'))).
Proof.
  intros Hm out. subst out. repeat apply conj.
  - intros bc Ht Hk.
    destruct (execute_circuit_submits to_braket env fuel c n kwargs s bc Hm Ht Hk)
      as (rest & Htr & _).
    now exists rest.
  - intros added d bc n' kw Htr Hin.
    destruct (execute_circuit_trace to_braket env fuel c n kwargs s)
      as [Hsame | (bc0 & rest & _ & _ & _ & Hadd & Hrest)].
    + rewrite Hsame in Htr. rewrite <- (app_nil_r (trace s)) in Htr at 1.
      apply app_inv_head in Htr. subst added. contradiction.
    + rewrite Hadd in Htr. apply app_inv_head in Htr. subst added.
      destruct Hin as [Heq | Hin].
      * now inversion Heq.
      * rewrite Forall_forall in Hrest. apply Hrest in Hin. discriminate.
  - intros r s' Hrun.
    destruct (execute_circuit_returned to_braket env fuel c n kwargs s r s' Hrun)
      as (_ & _ & bc' & task & w1 & s2 & res & _ & _ & _ & _ & -> & _).
    reflexivity.
  - intros e s' Hrun.
    destruct (to_braket c (verbatim_circuit (self s))) as [e0 | bc] eqn:Ht.
    + rewrite (execute_circuit_untranslated to_braket env fuel c (Some n) kwargs s e0 Hm Ht)
        in Hrun.
      inversion Hrun; subst. now left.
    + right. destruct (in_dec string_dec "shots" (keys kwargs)) as [Hk | Hk].
      * rewrite (execute_circuit_shots_twice to_braket env fuel c (Some n) kwargs s bc
                   Hm Ht Hk) in Hrun.
        inversion Hrun; subst. left. split; [assumption | reflexivity].
      * right.
        destruct (execute_circuit_raised to_braket env fuel c n kwargs s bc e s'
                    Hm Ht Hk Hrun) as [(w1 & Hr) | Hsdk].
        -- left. now exists bc, w1.
        -- now right.
Qed.

End Claims.

Lemma empty_measurements_witness :
  execute_circuit Stub.to_braket Stub.unreachable 3 Stub.rx_unmeasured (Some 100) []
    (Stub.start None false true) =
  (Raised (mkExn "RuntimeError" "No measurement found in the provided circuit."),
   Stub.start None false true).
Proof.
  apply (empty_measurements_raise_before_device Stub.to_braket Stub.unreachable).
  reflexivity.
Defined.

(** ** The claims on a device double *)

Lemma translation_precedes_submission_witness :
  execute_circuit Stub.to_braket Stub.unreachable 3 Stub.toffoli_measured (Some 100) []
    (Stub.start None false true) =
  (Raised (mkExn "UnsupportedGateError" "TOFFOLI"), Stub.start None false true).
Proof.
  apply (translation_precedes_submission Stub.to_braket Stub.unreachable).
  - discriminate.
  - reflexivity.
Defined.

Lemma result_container_combines_witness :
  let out := execute_circuit Stub.to_braket (Stub.simulator 5) 10 Stub.rx_measured
               (Some 100) Stub.options (Stub.start None false true) in
  let r := MeasurementOutcomes.mk [("M", [0%nat; 1%nat])] (__init__ None false true)
             [[0; 1]; [1; 1]] 100 in
  out = (Returned r, snd out) /\
  MeasurementOutcomes.measurements r = QiboCircuit.measurements Stub.rx_measured /\
  MeasurementOutcomes.nshots r = 100 /\
  MeasurementOutcomes.backend r = self (Stub.start None false true).
Proof.
  cbv zeta.
  assert (Hrun : execute_circuit Stub.to_braket (Stub.simulator 5) 10 Stub.rx_measured
                   (Some 100) Stub.options (Stub.start None false true) =
                 (Returned (MeasurementOutcomes.mk [("M", [0%nat; 1%nat])]
                              (__init__ None false true) [[0; 1]; [1; 1]] 100),
                  snd (execute_circuit Stub.to_braket (Stub.simulator 5) 10
                         Stub.rx_measured (Some 100) Stub.options
                         (Stub.start None false true))))
    by (vm_compute; reflexivity).
  split; [exact Hrun |].
  destruct (result_container_combines Stub.to_braket (Stub.simulator 5) 10
              Stub.rx_measured (Some 100) Stub.options (Stub.start None false true)
              _ _ Hrun) as (Hm & Hn & Hb & _).
  split; [exact Hm |]. split; [exact Hn | exact Hb].
Defined.

Lemma status_loop_polls_until_completed_witness :
  let s := Stub.start None false true in
  let sent := DeviceRun (LocalSimulator None) (["RX"], false) 100 Stub.options in
  trace (snd (execute_circuit Stub.to_braket (Stub.simulator 5) 2 Stub.rx_measured
                (Some 100) Stub.options s)) =
    [sent] ++ flat_map (poll_round 7%nat) ["RUNNING"; "RUNNING"] ++ final_round 7%nat
           ++ [TaskResultCall 7%nat] /\
  fst (execute_circuit Stub.to_braket (Stub.simulator 5) 1 Stub.rx_measured
         (Some 100) Stub.options s) = OutOfFuel /\
  fst (execute_circuit Stub.to_braket Stub.stuck 50 Stub.rx_measured
         (Some 100) Stub.options s) = OutOfFuel.
Proof.
  cbv zeta.
  assert (Hkeys : ~ In "shots" (keys Stub.options)).
  { intros [H | []]. discriminate H. }
  assert (Hmeasured : QiboCircuit.measurements Stub.rx_measured <> []) by discriminate.
  assert (Hpolled : polled (Stub.simulator 5) 7%nat 0 ["RUNNING"; "RUNNING"] 6).
  { apply (polled_cons _ _ 0 0 "RUNNING" ["RUNNING"] 6);
      [reflexivity | discriminate |].
    apply (polled_cons _ _ 3 3 "RUNNING" [] 6); [reflexivity | discriminate |].
    apply (polled_nil _ _ 6). }
  split; [| split].
  - destruct (status_loop_polls_until_completed Stub.to_braket (Stub.simulator 5) 2
                Stub.rx_measured 100 Stub.options (Stub.start None false true)
                (["RX"], false) 7%nat 0 eq_refl Hmeasured eq_refl Hkeys eq_refl)
      as (Hdone & _ & _).
    rewrite (Hdone ["RUNNING"; "RUNNING"] 6 6 Hpolled eq_refl (le_n 2)).
    reflexivity.
  - destruct (status_loop_polls_until_completed Stub.to_braket (Stub.simulator 5) 1
                Stub.rx_measured 100 Stub.options (Stub.start None false true)
                (["RX"], false) 7%nat 0 eq_refl Hmeasured eq_refl Hkeys eq_refl)
      as (_ & Hstarved & _).
    exact (proj1 (Hstarved ["RUNNING"; "RUNNING"] 6 Hpolled (le_n 2))).
  - destruct (status_loop_polls_until_completed Stub.to_braket Stub.stuck 50
                Stub.rx_measured 100 Stub.options (Stub.start None false true)
                (["RX"], false) 7%nat 0 eq_refl Hmeasured eq_refl Hkeys eq_refl)
      as (_ & _ & Hnever).
    refine (proj1 (Hnever (fun _ => True) _ I)).
    intros w _. exists "QUEUED", w. split; [reflexivity |]. split; [discriminate | exact I].
Defined.

Lemma sdk_errors_propagate_witness :
  let s := Stub.start None false true in
  let sent := DeviceRun (LocalSimulator None) (["RX"], false) 100 Stub.options in
  execute_circuit Stub.to_braket Stub.refusing 5 Stub.rx_measured (Some 100) Stub.options s =
    (Raised (mkExn "ValidationException" "device is offline"), mkState (self s) 0 [sent]) /\
  execute_circuit Stub.to_braket Stub.failing_poll 5 Stub.rx_measured (Some 100)
    Stub.options s =
    (Raised (mkExn "ClientError" "throttled"),
     mkState (self s) 3 ([sent] ++ flat_map (poll_round 7%nat) ["QUEUED"] ++ [TaskState 7%nat]))
  /\
  execute_circuit Stub.to_braket Stub.failing_result 5 Stub.rx_measured (Some 100)
    Stub.options s =
    (Raised (mkExn "TimeoutError" "no result"),
     mkState (self s) 0 ([sent] ++ final_round 7%nat ++ [TaskResultCall 7%nat])).
Proof.
  cbv zeta.
  assert (Hkeys : ~ In "shots" (keys Stub.options)).
  { intros [H | []]. discriminate H. }
  assert (Hmeasured : QiboCircuit.measurements Stub.rx_measured <> []) by discriminate.
  split; [| split].
  - exact (proj1 (sdk_errors_propagate Stub.to_braket Stub.refusing 5 Stub.rx_measured 100
                    Stub.options (Stub.start None false true) (["RX"], false)
                    Hmeasured eq_refl Hkeys)
             (mkExn "ValidationException" "device is offline") 0 eq_refl).
  - refine (proj1 (proj2 (sdk_errors_propagate Stub.to_braket Stub.failing_poll 5
                            Stub.rx_measured 100 Stub.options (Stub.start None false true)
                            (["RX"], false) Hmeasured eq_refl Hkeys))
              7%nat 0 ["QUEUED"] 3 (mkExn "ClientError" "throttled") 3
              eq_refl eq_refl _ eq_refl _).
    + apply (polled_cons _ _ 0 0 "QUEUED" [] 3); [reflexivity | discriminate |].
      apply (polled_nil _ _ 3).
    + simpl. lia.
  - refine (proj1 (proj2 (proj2 (sdk_errors_propagate Stub.to_braket Stub.failing_result 5
                                   Stub.rx_measured 100 Stub.options
                                   (Stub.start None false true)
                                   (["RX"], false) Hmeasured eq_refl Hkeys)))
              7%nat 0
              (mkState (self (Stub.start None false true)) 0
                 ([DeviceRun (LocalSimulator None) (["RX"], false) 100 Stub.options]
                    ++ final_round 7%nat))
              (mkExn "TimeoutError" "no result") 0 eq_refl _ eq_refl).
    vm_compute. reflexivity.
Defined.

(** C7, the claim as stated fails: an entry named [shots] in [kwargs] is not
    forwarded.  The call raises TypeError in the state it started from: the
    device was not called. *)
Lemma shots_entry_is_not_forwarded :
  let s := Stub.start None false false in
  let out := execute_circuit Stub.to_braket (Stub.simulator 0) 5 Stub.rx_measured (Some 100)
               [("shots", PyInt 5)] s in
  out = (Raised (mkExn "TypeError" "run() got multiple values for keyword argument 'shots'"),
         s) /\
  filter is_device_run (trace (snd out)) = [].
Proof.
  cbv zeta. split; vm_compute; reflexivity.
Defined.

Lemma kwargs_forwarded_verbatim_witness :
  exists added,
    trace (snd (execute_circuit Stub.to_braket (Stub.simulator 5) 5 Stub.rx_measured
                  (Some 100) Stub.options (Stub.start None false true))) =
      trace (Stub.start None false true) ++ added /\
    filter is_device_run added =
      [DeviceRun (LocalSimulator None) (["RX"], false) 100 Stub.options].
Proof.
  refine (proj1 (kwargs_forwarded_verbatim Stub.to_braket (Stub.simulator 5) 5
                   Stub.rx_measured 100 Stub.options (Stub.start None false true)
                   (["RX"], false) _ eq_refl) _).
  - discriminate.
  - intros [H | []]. discriminate H.
Defined.

Lemma default_shot_count_witness :
  let s := Stub.start None false false in
  let out := execute_circuit Stub.to_braket (Stub.simulator 0) 0 Stub.rx_measured None
               Stub.options s in
  let r := MeasurementOutcomes.mk [("M", [0%nat; 1%nat])] (self s) [[0; 1]; [1; 1]] 1000 in
  out = (Returned r, snd out) /\
  MeasurementOutcomes.nshots r = 1000 /\
  exists bc rest,
    trace (snd out) = trace s ++ DeviceRun (device (self s)) bc 1000 Stub.options :: rest.
Proof.
  cbv zeta.
  assert (Hrun : execute_circuit Stub.to_braket (Stub.simulator 0) 0 Stub.rx_measured None
                   Stub.options (Stub.start None false false) =
                 (Returned (MeasurementOutcomes.mk [("M", [0%nat; 1%nat])]
                              (self (Stub.start None false false)) [[0; 1]; [1; 1]] 1000),
                  snd (execute_circuit Stub.to_braket (Stub.simulator 0) 0 Stub.rx_measured
                         None Stub.options (Stub.start None false false))))
    by (vm_compute; reflexivity).
  split; [exact Hrun |].
  exact (proj2 (proj2 (default_shot_count Stub.to_braket (Stub.simulator 0) 0
                         Stub.rx_measured Stub.options (Stub.start None false false)))
           _ _ Hrun).
Defined.

Lemma shot_count_is_not_validated_witness :
  let s := Stub.start None false false in
  let out := execute_circuit Stub.to_braket (Stub.simulator 0) 0 Stub.rx_measured
               (Some (-3)) Stub.options s in
  let r := MeasurementOutcomes.mk [("M", [0%nat; 1%nat])] (self s) [[0; 1]; [1; 1]] (-3) in
  (exists rest,
     trace (snd out) =
       trace s ++ DeviceRun (device (self s)) (["RX"], false) (-3) Stub.options :: rest) /\
  out = (Returned r, snd out) /\
  MeasurementOutcomes.nshots r = -3.
Proof.
  cbv zeta.
  assert (Hkeys : ~ In "shots" (keys Stub.options)).
  { intros [H | []]. discriminate H. }
  assert (Hmeasured : QiboCircuit.measurements Stub.rx_measured <> []) by discriminate.
  assert (Hrun : execute_circuit Stub.to_braket (Stub.simulator 0) 0 Stub.rx_measured
                   (Some (-3)) Stub.options (Stub.start None false false) =
                 (Returned (MeasurementOutcomes.mk [("M", [0%nat; 1%nat])]
                              (self (Stub.start None false false)) [[0; 1]; [1; 1]] (-3)),
                  snd (execute_circuit Stub.to_braket (Stub.simulator 0) 0 Stub.rx_measured
                         (Some (-3)) Stub.options (Stub.start None false false))))
    by (vm_compute; reflexivity).
  destruct (shot_count_is_not_validated Stub.to_braket (Stub.simulator 0) 0
              Stub.rx_measured (-3) Stub.options (Stub.start None false false) Hmeasured)
    as (Hsent & _ & Hstored & _).
  split; [exact (Hsent (["RX"], false) eq_refl Hkeys) |].
  split; [exact Hrun | exact (Hstored _ _ Hrun)].
Defined.

(** * Further properties *)

(** ** Construction *)

(** X1. The device selector read backwards.  The client holds a remote
    device exactly when [device] is a non-empty string other than
    [braket_dm], and then it is the device of that string; it holds the
    density-matrix simulator exactly for [braket_dm]; and it holds the
    default simulator exactly when [device] is [None] or the empty string. *)
Theorem device_selector_inverse (d : option string) (vc vb : bool) :
  (forall arn,
     device (__init__ d vc vb) = AwsDevice arn <->
     d = Some arn /\ arn <> EmptyString /\ arn <> "braket_dm") /\
  (forall backend,
     device (__init__ d vc vb) = LocalSimulator (Some backend) <->
     d = Some "braket_dm" /\ backend = "braket_dm") /\
  (device (__init__ d vc vb) = LocalSimulator None <->
   d = None \/ d = Some EmptyString).
Proof.
  unfold __init__. cbn [device].
  destruct d as [d |]; [destruct (String.eqb_spec d "braket_dm") as [-> | Hdm];
                        [| destruct d as [| a d]; cbn [str_truthy]] |];
    (split; [intros arn | split; [intros backend |]]); split.
  (* braket_dm *)
  - discriminate.
  - intros (Heq & _ & Hne). inversion Heq. congruence.
  - intros Heq. inversion Heq. split; reflexivity.
  - intros [_ ->]. reflexivity.
  - discriminate.
  - intros [Heq | Heq]; discriminate.
  (* the empty string *)
  - discriminate.
  - intros (Heq & Hne & _). inversion Heq. congruence.
  - discriminate.
  - intros [Heq _]. inversion Heq.
  - now right.
  - reflexivity.
  (* another string *)
  - intros Heq. inversion Heq; subst arn. repeat split; [discriminate | assumption].
  - intros (Heq & _ & _). inversion Heq. reflexivity.
  - discriminate.
  - intros [Heq _]. inversion Heq. congruence.
  - discriminate.
  - intros [Heq | Heq]; discriminate.
  (* None *)
  - discriminate.
  - intros (Heq & _). discriminate.
  - discriminate.
  - intros [Heq _]. discriminate.
  - now left.
  - reflexivity.
Qed.

Section Quiet.

Context {Gate BraketCircuit Task World : Type}.
Variable to_braket : QiboCircuit.t Gate -> bool -> PyExn + BraketCircuit.
Variable env : Env BraketCircuit Task World.

Local Abbreviation State := (State BraketCircuit Task World).

(** ** A call without progress reporting *)


End Quiet.

Section QuietEnvironments.

Context {Gate BraketCircuit Task World : Type}.
Variable to_braket : QiboCircuit.t Gate -> bool -> PyExn + BraketCircuit.
Variables env1 env2 : Env BraketCircuit Task World.

Local Abbreviation State := (State BraketCircuit Task World).

(** X3. With [verbosity] off the call does not depend on what the task's
    status is or on what happens while the process sleeps: in two
    environments that answer the submission and the retrieval alike, it ends
    alike, whatever the fuel. *)
Theorem quiet_call_ignores_status fuel1 fuel2 c nshots kwargs (s : State) :
  verbosity (self s) = false ->
  (forall d bc n kw w, device_run env1 d bc n kw w = device_run env2 d bc n kw w) ->
  (forall task w, task_result env1 task w = task_result env2 task w) ->
  execute_circuit to_braket env1 fuel1 c nshots kwargs s =
  execute_circuit to_braket env2 fuel2 c nshots kwargs s.
Proof.
  intros Hv Hrun Hres.
  assert (Hsome : exists n,
             forall env fuel,
               execute_circuit to_braket env fuel c nshots kwargs s =
               execute_circuit to_braket env fuel c (Some n) kwargs s).
  { destruct nshots as [n |]; [exists n | exists 1000]; reflexivity. }
  destruct Hsome as [n Hsome]. rewrite !Hsome. clear Hsome.
  destruct (measured_or_not c) as [Hm | Hm].
  { now rewrite !execute_circuit_unmeasured. }
  destruct (to_braket c (verbatim_circuit (self s))) as [e | bc] eqn:Ht.
  { now rewrite !(execute_circuit_untranslated to_braket _ _ c (Some n) kwargs s e Hm Ht). }
  destruct (in_dec string_dec "shots" (keys kwargs)) as [Hk | Hk].
  { now rewrite !(execute_circuit_shots_twice to_braket _ _ c (Some n) kwargs s bc Hm Ht Hk). }
  destruct (device_run env1 (device (self s)) bc n kwargs (world s)) as [[e | task] w1] eqn:Hr1;
    pose proof Hr1 as Hr2; rewrite Hrun in Hr2.
  - rewrite (execute_circuit_refused to_braket env1 fuel1 c n kwargs s bc e w1 Hm Ht Hk Hr1).
    rewrite (execute_circuit_refused to_braket env2 fuel2 c n kwargs s bc e w1 Hm Ht Hk Hr2).
    reflexivity.
  - rewrite (execute_circuit_submitted to_braket env1 fuel1 c n kwargs s bc task w1
               Hm Ht Hk Hr1).
    rewrite (execute_circuit_submitted to_braket env2 fuel2 c n kwargs s bc task w1
               Hm Ht Hk Hr2).
    rewrite !while_verbosity_off by exact Hv. cbn zeta. cbn [world].
    rewrite Hres. reflexivity.
Qed.

End QuietEnvironments.

(** ** Counting polls and sleeps *)

Section Counting.

Context {BraketCircuit Task : Type}.

Local Abbreviation Trace := (list (Event BraketCircuit Task)).

Lemma polls_app (tr1 tr2 : Trace) : polls (tr1 ++ tr2) = (polls tr1 + polls tr2)%nat.
Proof. unfold polls. now rewrite filter_app, length_app. Qed.

Lemma slept_app (tr1 tr2 : Trace) : slept (tr1 ++ tr2) = slept tr1 + slept tr2.
Proof.
  induction tr1 as [| ev tr1 IH]; [reflexivity |].
  destruct ev; cbn [app slept]; rewrite IH; lia.
Qed.

Lemma polls_rounds (task : Task) tags :
  polls (flat_map (poll_round (BraketCircuit := BraketCircuit) task) tags) = List.length tags.
Proof.
  induction tags as [| tag tags IH]; [reflexivity |].
  cbn [flat_map]. rewrite polls_app, IH. reflexivity.
Qed.

Lemma slept_rounds (task : Task) tags :
  slept (flat_map (poll_round (BraketCircuit := BraketCircuit) task) tags)
  = 3 * Z.of_nat (List.length tags).
Proof.
  induction tags as [| tag tags IH]; [reflexivity |].
  cbn [flat_map]. rewrite slept_app, IH. cbn [List.length poll_round slept]. lia.
Qed.

End Counting.

Section LoopAccounts.

Context {BraketCircuit Task World : Type}.
Variable env : Env BraketCircuit Task World.

Local Abbreviation State := (State BraketCircuit Task World).

(** Once the loop has been left, more fuel changes nothing. *)
Lemma while_verbosity_more_fuel fuel fuel' task (s : State) :
  (fuel <= fuel')%nat ->
  fst (while_verbosity env fuel task s) <> OutOfFuel ->
  while_verbosity env fuel' task s = while_verbosity env fuel task s.
Proof.
  intros Hle Hleft. destruct (verbosity (self s)) eqn:Hv.
  - destruct (while_verbosity_run env task fuel s Hv)
      as (tags & w2 & Hp & [[_ Hrun] | [Hlen [(w3 & Hst & Hrun) | (e & w3 & Hst & Hrun)]]]).
    + rewrite Hrun in Hleft. now contradiction Hleft.
    + rewrite Hrun.
      rewrite (while_verbosity_polled_completed env fuel' task tags s w2 w3) by (assumption || lia).
      reflexivity.
    + rewrite Hrun.
      rewrite (while_verbosity_polled_raised env fuel' task tags s w2 e w3) by (assumption || lia).
      reflexivity.
  - now rewrite !while_verbosity_off.
Qed.

(** The loop sleeps three seconds for each poll that did not end it. *)
Lemma while_verbosity_accounts fuel task (s : State) :
  exists added,
    trace (snd (while_verbosity env fuel task s)) = trace s ++ added /\
    Forall (fun ev : Event BraketCircuit Task =>
              is_device_run ev = false /\ is_task_result ev = false) added /\
    (fst (while_verbosity env fuel task s) = OutOfFuel ->
     slept added = 3 * Z.of_nat (polls added)) /\
    (fst (while_verbosity env fuel task s) <> OutOfFuel ->
     slept added = 3 * Z.of_nat (polls added - 1)).
Proof.
  destruct (verbosity (self s)) eqn:Hv.
  - destruct (while_verbosity_run env task fuel s Hv)
      as (tags & w2 & _ & [[_ Hrun] | [_ [(w3 & _ & Hrun) | (e & w3 & _ & Hrun)]]]);
      rewrite Hrun; cbn [fst snd trace]; eexists; (split; [reflexivity |]).
    + split; [apply poll_rounds_calls |]. split; [| congruence]. intros _.
      now rewrite slept_rounds, polls_rounds.
    + split; [apply Forall_app; split; [apply poll_rounds_calls | repeat constructor] |].
      split; [discriminate |]. intros _.
      rewrite slept_app, polls_app, slept_rounds, polls_rounds.
      cbn [final_round slept polls filter is_task_state List.length].
      replace (List.length tags + 1 - 1)%nat with (List.length tags) by lia. lia.
    + split; [apply Forall_app; split; [apply poll_rounds_calls | repeat constructor] |].
      split; [discriminate |]. intros _.
      rewrite slept_app, polls_app, slept_rounds, polls_rounds.
      cbn [slept polls filter is_task_state List.length].
      replace (List.length tags + 1 - 1)%nat with (List.length tags) by lia. lia.
  - rewrite while_verbosity_off by assumption. exists []. cbn [fst snd].
    split; [now rewrite app_nil_r |]. split; [constructor |].
    split; [discriminate | reflexivity].
Qed.

End LoopAccounts.

Section Further.

Context {Gate BraketCircuit Task World : Type}.
Variable to_braket : QiboCircuit.t Gate -> bool -> PyExn + BraketCircuit.
Variable env : Env BraketCircuit Task World.

Local Abbreviation State := (State BraketCircuit Task World).

(** ** Every call follows the schedule *)


(** ** Time slept *)

(** X5. A call sleeps three seconds for each status poll that did not end
    the loop: when the call ends, all polls but the last one were followed
    by the pause (and a call that polled nothing slept nothing); while it is
    still in the loop, every poll was. *)
Theorem three_seconds_per_unfinished_poll fuel c nshots kwargs (s : State) :
  let out := execute_circuit to_braket env fuel c nshots kwargs s in
  exists added,
    trace (snd out) = trace s ++ added /\
    (fst out = OutOfFuel -> slept added = 3 * Z.of_nat (polls added)) /\
    (fst out <> OutOfFuel -> slept added = 3 * Z.of_nat (polls added - 1)).
Proof.
  intros out. subst out.
  assert (Hsome : exists n, execute_circuit to_braket env fuel c nshots kwargs s =
                            execute_circuit to_braket env fuel c (Some n) kwargs s).
  { destruct nshots as [n |]; [exists n | exists 1000]; reflexivity. }
  destruct Hsome as [n Hsome]. rewrite Hsome. clear Hsome.
  execute_paths c s n kwargs Hm Ht Hk Hr;
    try (exists []; cbn [fst snd]; split; [now rewrite app_nil_r |];
         split; [discriminate | reflexivity]).
  - eexists. cbn [fst snd trace]. split; [reflexivity |].
    split; [discriminate | reflexivity].
  - match goal with
    | |- context [while_verbosity env fuel ?t ?s1] =>
        destruct (while_verbosity_accounts env fuel t s1)
          as (added & Htr & _ & Hout & Hleft);
        destruct (while_verbosity env fuel t s1) as [[[] | e' |] s2]
    end; cbn [fst snd trace] in *.
    + assert (Hacc : slept added = 3 * Z.of_nat (polls added - 1)) by (apply Hleft; discriminate).
      exists (DeviceRun (device (self s)) bc n kwargs :: added ++ [TaskResultCall task]).
      assert (Hcount :
                slept (DeviceRun (BraketCircuit := BraketCircuit) (Task := Task)
                         (device (self s)) bc n kwargs :: added ++ [TaskResultCall task])
                = 3 * Z.of_nat
                        (polls (DeviceRun (BraketCircuit := BraketCircuit) (Task := Task)
                                  (device (self s)) bc n kwargs
                                  :: added ++ [TaskResultCall task]) - 1)).
      { cbn [slept]. unfold polls at 1. cbn [filter is_task_state]. fold (polls (added ++ [TaskResultCall task])).
        rewrite slept_app, polls_app. cbn [slept polls filter is_task_state List.length].
        rewrite Nat.add_0_r, Z.add_0_r. exact Hacc. }
      destruct (task_result env task (world s2)) as [[e' | res] w3]; cbn [fst snd trace];
        (split; [rewrite Htr, <- !app_assoc; reflexivity |]);
        (split; [discriminate | intros _; exact Hcount]).
    + exists (DeviceRun (device (self s)) bc n kwargs :: added).
      split; [rewrite Htr, <- app_assoc; reflexivity |].
      split; [discriminate |]. intros _. cbn [slept]. unfold polls at 1.
      cbn [filter is_task_state]. fold (polls added). apply Hleft. discriminate.
    + exists (DeviceRun (device (self s)) bc n kwargs :: added).
      split; [rewrite Htr, <- app_assoc; reflexivity |].
      split; [| congruence]. intros _. cbn [slept]. unfold polls at 1.
      cbn [filter is_task_state]. fold (polls added). now apply Hout.
Qed.

(** ** Fuel *)

(** X6. The fuel only bounds the status loop: a call that has ended, by
    returning or by raising, ends the same way and in the same state with
    any larger fuel. *)
Theorem more_fuel_same_outcome fuel fuel' c nshots kwargs (s : State) :
  (fuel <= fuel')%nat ->
  fst (execute_circuit to_braket env fuel c nshots kwargs s) <> OutOfFuel ->
  execute_circuit to_braket env fuel' c nshots kwargs s =
  execute_circuit to_braket env fuel c nshots kwargs s.
Proof.
  intros Hle.
  assert (Hsome : exists n,
             forall f, execute_circuit to_braket env f c nshots kwargs s =
                       execute_circuit to_braket env f c (Some n) kwargs s).
  { destruct nshots as [n |]; [exists n | exists 1000]; reflexivity. }
  destruct Hsome as [n Hsome]. rewrite !Hsome. clear Hsome.
  destruct (measured_or_not c) as [Hm | Hm].
  { now rewrite !execute_circuit_unmeasured. }
  destruct (to_braket c (verbatim_circuit (self s))) as [e | bc] eqn:Ht.
  { now rewrite !(execute_circuit_untranslated to_braket env _ c (Some n) kwargs s e Hm Ht). }
  destruct (in_dec string_dec "shots" (keys kwargs)) as [Hk | Hk].
  { now rewrite !(execute_circuit_shots_twice to_braket env _ c (Some n) kwargs s bc Hm Ht Hk). }
  destruct (device_run env (device (self s)) bc n kwargs (world s)) as [[e | task] w1] eqn:Hr.
  { now rewrite !(execute_circuit_refused to_braket env _ c n kwargs s bc e w1 Hm Ht Hk Hr). }
  rewrite !(execute_circuit_submitted to_braket env _ c n kwargs s bc task w1 Hm Ht Hk Hr).
  set (s1 := mkState (self s) w1 (trace s ++ [DeviceRun (device (self s)) bc n kwargs])).
  intros Hleft.
  rewrite (while_verbosity_more_fuel env fuel fuel' task s1 Hle); [reflexivity |].
  intros Hout. apply Hleft.
  destruct (while_verbosity env fuel task s1) as [[[] | e' |] s2]; try discriminate.
  reflexivity.
Qed.

(** ** The defaults *)

(** X7. The client built with no argument, called with a circuit and nothing
    else: the circuit is translated with [verbatim] off and submitted to the
    default local simulator for 1000 shots with no option; the status is not
    polled; and the call ends in what the retrieval answers. *)
Theorem default_client_default_call fuel c w tr bc task w1 :
  QiboCircuit.measurements c <> [] ->
  to_braket c false = inr bc ->
  device_run env (LocalSimulator None) bc 1000 [] w = (inr task, w1) ->
  let this := __init__ None false false in
  let done w2 :=
    mkState this w2 (tr ++ [DeviceRun (LocalSimulator None) bc 1000 []; TaskResultCall task]) in
  execute_circuit to_braket env fuel c None [] (mkState this w tr) =
  match task_result env task w1 with
  | (inl e, w2) => (Raised e, done w2)
  | (inr res, w2) =>
      (Returned (MeasurementOutcomes.mk (QiboCircuit.measurements c) this
                   (TaskResult.measurements res) 1000), done w2)
  end.
Proof.
  intros Hm Ht Hr this done. rewrite execute_circuit_nshots_omitted.
  rewrite (execute_circuit_submitted to_braket env fuel c 1000 [] (mkState this w tr)
             bc task w1 Hm Ht (fun H => H) Hr).
  rewrite while_verbosity_off by reflexivity. cbn zeta. cbn [self world trace].
  subst done. cbn beta.
  destruct (task_result env task w1) as [[e | res] w2]; rewrite <- app_assoc; reflexivity.
Qed.

(** ** Progress reporting and the result *)

(** X8. Progress reporting adds waiting and printing, not results.  When
    what [task.result()] answers does not depend on the moment it is asked,
    a call that returns with [verbosity] on returns with [verbosity] off as
    well, for any fuel, and the two containers hold the same measurements,
    samples and shot count. *)
Theorem progress_reporting_keeps_the_result fuel fuel' c nshots kwargs (s : State) r s' :
  (forall task w w', fst (task_result env task w) = fst (task_result env task w')) ->
  verbosity (self s) = true ->
  execute_circuit to_braket env fuel c nshots kwargs s = (Returned r, s') ->
  let quiet :=
    mkState (mkBackend (verbatim_circuit (self s)) false (device (self s)) (name (self s)))
      (world s) (trace s) in
  exists r0 s0,
    execute_circuit to_braket env fuel' c nshots kwargs quiet = (Returned r0, s0) /\
    MeasurementOutcomes.measurements r0 = MeasurementOutcomes.measurements r /\
    MeasurementOutcomes.samples r0 = MeasurementOutcomes.samples r /\
    MeasurementOutcomes.nshots r0 = MeasurementOutcomes.nshots r.
Proof.
  intros Hsteady Hv Hrun quiet.
  assert (Hsome : exists n,
             forall f st, execute_circuit to_braket env f c nshots kwargs st =
                          execute_circuit to_braket env f c (Some n) kwargs st).
  { destruct nshots as [n |]; [exists n | exists 1000]; reflexivity. }
  destruct Hsome as [n Hsome]. rewrite Hsome in Hrun. rewrite Hsome. clear Hsome.
  destruct (execute_circuit_returned to_braket env fuel c n kwargs s r s' Hrun)
    as (Hm & Hk & bc & task & w1 & s2 & res & Ht & Hr & _ & Hres & -> & _).
  rewrite (execute_circuit_submitted to_braket env fuel' c n kwargs quiet bc task w1
             Hm Ht Hk Hr).
  rewrite while_verbosity_off by reflexivity. cbn zeta. cbn [self world trace].
  pose proof (Hsteady task w1 (world s2)) as Hsame. rewrite Hres in Hsame.
  destruct (task_result env task w1) as [answer w3]. cbn [fst] in Hsame. subst answer.
  eexists. eexists. split; [reflexivity |]. repeat split.
Qed.

End Further.

(** ** The further properties on the device double *)


Lemma quiet_call_ignores_status_witness :
  execute_circuit Stub.to_braket (Stub.simulator 5) 0 Stub.rx_measured (Some 100)
    Stub.options (Stub.start None false false) =
  execute_circuit Stub.to_braket Stub.stuck 7 Stub.rx_measured (Some 100)
    Stub.options (Stub.start None false false).
Proof.
  apply (quiet_call_ignores_status Stub.to_braket (Stub.simulator 5) Stub.stuck).
  - reflexivity.
  - intros d bc n kw w. reflexivity.
  - intros task w. reflexivity.
Defined.


Lemma more_fuel_same_outcome_witness :
  execute_circuit Stub.to_braket (Stub.simulator 5) 10 Stub.rx_measured (Some 100)
    Stub.options (Stub.start None false true) =
  execute_circuit Stub.to_braket (Stub.simulator 5) 2 Stub.rx_measured (Some 100)
    Stub.options (Stub.start None false true).
Proof.
  apply (more_fuel_same_outcome Stub.to_braket (Stub.simulator 5) 2 10).
  - lia.
  - vm_compute. discriminate.
Defined.

Lemma default_client_default_call_witness :
  execute_circuit Stub.to_braket (Stub.simulator 5) 0 Stub.rx_measured None []
    (mkState (__init__ None false false) 0 []) =
  (Returned (MeasurementOutcomes.mk [("M", [0%nat; 1%nat])] (__init__ None false false)
               [[0; 1]; [1; 1]] 1000),
   mkState (__init__ None false false) 0
     [DeviceRun (LocalSimulator None) (["RX"], false) 1000 []; TaskResultCall 7%nat]).
Proof.
  refine (default_client_default_call Stub.to_braket (Stub.simulator 5) 0 Stub.rx_measured
            0 [] (["RX"], false) 7%nat 0 _ eq_refl eq_refl).
  discriminate.
Defined.

Lemma progress_reporting_keeps_the_result_witness :
  exists r0 s0,
    execute_circuit Stub.to_braket (Stub.simulator 5) 0 Stub.rx_measured (Some 100)
      Stub.options (Stub.start None false false) = (Returned r0, s0) /\
    MeasurementOutcomes.samples r0 = [[0; 1]; [1; 1]].
Proof.
  assert (Hrun : execute_circuit Stub.to_braket (Stub.simulator 5) 2 Stub.rx_measured
                   (Some 100) Stub.options (Stub.start None false true) =
                 (Returned (MeasurementOutcomes.mk [("M", [0%nat; 1%nat])]
                              (__init__ None false true) [[0; 1]; [1; 1]] 100),
                  snd (execute_circuit Stub.to_braket (Stub.simulator 5) 2
                         Stub.rx_measured (Some 100) Stub.options
                         (Stub.start None false true))))
    by (vm_compute; reflexivity).
  destruct (progress_reporting_keeps_the_result Stub.to_braket (Stub.simulator 5) 2 0
              Stub.rx_measured (Some 100) Stub.options (Stub.start None false true)
              _ _ (fun task w w' => eq_refl) eq_refl Hrun)
    as (r0 & s0 & Hquiet & _ & Hsamples & _).
  exists r0, s0. split; [exact Hquiet | exact Hsamples].
Defined.
